(** * lang_sam/server.py: the LangSAMAPI adapter (decode_request, predict,
    encode_response), embedded as Rocq functions.

    Python values are modelled by small tagged unions, dictionaries by
    stdpp's [gmap], and exceptions by a result type.  [predict] reads and
    rebuilds the process-wide model object, prints and calls the model:
    it is a function from the model to its result, the model it leaves
    and the trace of what it printed and called.  What the file does not
    define itself (the interpreter's [float], the imaging library, the
    model) is a parameter of the functions that use it. *)

From Stdlib Require Import ZArith NArith List String Ascii Floats Lia.
From Stdlib.Strings Require Import Byte.
From stdpp Require Import base option gmap strings list.

Set Warnings "-inexact-float,-register-all".
Local Open Scope string_scope.
Local Open Scope list_scope.

(** ** Exceptions *)

Inductive exn_class :=
| ValueError | TypeError | AttributeError | KeyError | IndexError
| RuntimeError
| OtherError (name : string).

(** An exception is its class and [str(e)]. *)
Record exn := Exn { exn_cls : exn_class; exn_str : string }.

Inductive result (A : Type) :=
| Ok (a : A)
| Raise (e : exn).
Arguments Ok {A} a.
Arguments Raise {A} e.

Definition rbind {A B} (r : result A) (k : A -> result B) : result B :=
  match r with
  | Ok a => k a
  | Raise e => Raise e
  end.

Definition is_ok {A} (r : result A) : bool :=
  match r with Ok _ => true | Raise _ => false end.

Notation "x <-- r ;; k" := (rbind r (fun x => k))
  (at level 20, r at level 99, k at level 200, only parsing).

(** ** Values on the request side *)

(** [fastapi.UploadFile]: an object (compared by identity) around the
    uploaded file, whose [.file.read()] gives the file's bytes. *)
Record UploadFile := { upload_id : positive; upload_file : list byte }.

(** A field of the multipart form is a string or an uploaded file. *)
Inductive form_value :=
| FormStr (s : string)
| FormFile (u : UploadFile).

(** What [request.get(key)] evaluates to, also with a string for default:
    [None], a string or an uploaded file. *)
Inductive pyval :=
| PyNone
| PyStr (s : string)
| PyUploadFile (u : UploadFile).

Definition of_form (v : form_value) : pyval :=
  match v with
  | FormStr s => PyStr s
  | FormFile u => PyUploadFile u
  end.

(** [request.get(key, default)] on the form data. *)
Definition form_get (request : gmap string form_value)
    (key : string) (default : pyval) : pyval :=
  match request !! key with
  | Some v => of_form v
  | None => default
  end.

(** [x is None] *)
Definition is_None (v : pyval) : bool :=
  match v with PyNone => true | _ => false end.

(** [type(x).__name__] *)
Definition type_name (v : pyval) : string :=
  match v with
  | PyNone => "NoneType"
  | PyStr _ => "str"
  | PyUploadFile _ => "UploadFile"
  end.

(** [a != b]: strings by content, uploaded files by identity, values of
    different types differ. *)
Definition py_ne (a b : pyval) : bool :=
  match a, b with
  | PyNone, PyNone => false
  | PyStr s, PyStr t => negb (String.eqb s t)
  | PyUploadFile u, PyUploadFile v => negb (Pos.eqb (upload_id u) (upload_id v))
  | _, _ => true
  end.

(** The dictionary [decode_request] returns; its keys are fixed. *)
Module Inputs.
Record t := Make {
  sam_type : pyval;
  box_threshold : float;
  text_threshold : float;
  image_bytes : list byte;
  text_prompt : pyval;
}.
End Inputs.

(** ** decode_request *)

Section Decode.

(** The interpreter's conversion of a string to a float ([float(s)]),
    [None] where it rejects the string, and [repr] of a string. *)
Variable float_of_str : string -> option float.
Variable repr_str : string -> string.

(** [float(x)] of a string, an uploaded file or [None] *)
Definition py_float (v : pyval) : result float :=
  match v with
  | PyStr s =>
      match float_of_str s with
      | Some f => Ok f
      | None =>
          Raise (Exn ValueError
                   ("could not convert string to float: " +:+ repr_str s))
      end
  | _ =>
      Raise (Exn TypeError
               ("float() argument must be a string or a real number, not '"
                  +:+ type_name v +:+ "'"))
  end.

(** [x.file.read()] *)
Definition file_read (v : pyval) : result (list byte) :=
  match v with
  | PyUploadFile u => Ok (upload_file u)
  | _ =>
      Raise (Exn AttributeError
               ("'" +:+ type_name v +:+ "' object has no attribute 'file'"))
  end.

(** [float(request.get(key, default))] where the default is a float,
    which [float] gives back as it is. *)
Definition float_field (request : gmap string form_value)
    (key : string) (default : float) : result float :=
  match request !! key with
  | Some v => py_float (of_form v)
  | None => Ok default
  end.

Definition no_image_error : exn :=
  Exn ValueError "No image file provided in the request.".

Definition decode_request (request : gmap string form_value)
  : result Inputs.t :=
  let sam_type := form_get request "sam_type" PyNone in
  box_threshold <-- float_field request "box_threshold" 0.3 ;;
  text_threshold <-- float_field request "text_threshold" 0.25 ;;
  let text_prompt := form_get request "text_prompt" (PyStr EmptyString) in
  let image_file := form_get request "image" PyNone in
  if is_None image_file then Raise no_image_error
  else
    image_bytes <-- file_read image_file ;;
    Ok (Inputs.Make sam_type box_threshold text_threshold
          image_bytes text_prompt).

(** A threshold field that is present and that [float] rejects. *)
Definition malformed (request : gmap string form_value) (key : string)
  : bool :=
  match request !! key with
  | Some v => negb (is_ok (py_float (of_form v)))
  | None => false
  end.

(** The failures of [decode_request] on the client's input: the missing
    image, and a threshold that [float] rejects. *)
Definition InputError (e : exn) : Prop :=
  e = no_image_error \/ exists v, py_float v = Raise e.

End Decode.

(** ** Arrays, tensors and the values of a model result *)

Inductive dtype := Float16 | Float32 | Float64 | Int32 | Int64.

(** [numpy.ndarray]: element type, shape, memory order and the elements'
    bytes in that order. *)
Module np.
Record ndarray := Array {
  dtype_of : dtype;
  shape : list N;
  fortran_order : bool;
  data : list byte;
}.

Definition itemsize (d : dtype) : N :=
  match d with
  | Float16 => 2
  | Float32 => 4
  | Float64 => 8
  | Int32 => 4
  | Int64 => 8
  end.

(** Number of bytes of the elements: the item size times the product of
    the dimensions. *)
Definition nbytes (a : ndarray) : N :=
  (itemsize (dtype_of a) * fold_right N.mul 1 (shape a))%N.

(** An array whose buffer has the size its shape and element type ask
    for, and whose dimensions fit the signed 64-bit index type. *)
Definition well_formed (a : ndarray) : Prop :=
  length (data a) = N.to_nat (nbytes a)
  /\ Forall (fun n => (n < 2 ^ 63)%N) (shape a).

(** The type string of an element type on a little-endian host. *)
Definition descr (d : dtype) : string :=
  match d with
  | Float16 => "<f2"
  | Float32 => "<f4"
  | Float64 => "<f8"
  | Int32 => "<i4"
  | Int64 => "<i8"
  end.

Definition dtype_of_descr (s : string) : option dtype :=
  if String.eqb s "<f2" then Some Float16
  else if String.eqb s "<f4" then Some Float32
  else if String.eqb s "<f8" then Some Float64
  else if String.eqb s "<i4" then Some Int32
  else if String.eqb s "<i8" then Some Int64
  else None.

(** *** [repr] of the header's values *)

Definition digit (n : N) : ascii := ascii_of_N (48 + n).

Fixpoint repr_digits (fuel : nat) (n : N) (acc : list ascii) : list ascii :=
  match fuel with
  | O => acc
  | S fuel =>
      let acc := digit (n mod 10) :: acc in
      if (n <? 10)%N then acc else repr_digits fuel (n / 10) acc
  end.

(** [repr(n)] of a natural number: its decimal digits. *)
Definition repr_N (n : N) : string :=
  string_of_list_ascii (repr_digits (S (N.to_nat (N.log2 n))) n []).

Fixpoint repr_dims (l : list N) : string :=
  match l with
  | [] => EmptyString
  | [n] => repr_N n
  | n :: l => repr_N n +:+ ", " +:+ repr_dims l
  end.

(** [repr(shape)] of a tuple of dimensions: [()], [(3,)], [(3, 4)]. *)
Definition repr_shape (l : list N) : string :=
  match l with
  | [n] => "(" +:+ repr_N n +:+ ",)"
  | _ => "(" +:+ repr_dims l +:+ ")"
  end.

Definition repr_bool (b : bool) : string := if b then "True" else "False".

(** The header dictionary, its keys in sorted order. *)
Definition header_dict (a : ndarray) : string :=
  "{'descr': '" +:+ descr (dtype_of a)
    +:+ "', 'fortran_order': " +:+ repr_bool (fortran_order a)
    +:+ ", 'shape': " +:+ repr_shape (shape a) +:+ ", }".

(** *** The container *)

Definition MAGIC_PREFIX : list byte := [x93; x4e; x55; x4d; x50; x59].
Definition MAGIC_LEN : N := 8.
Definition ARRAY_ALIGN : N := 64.

Definition byte_of_N (n : N) : byte :=
  match Byte.of_N (n mod 256) with
  | Some b => b
  | None => x00
  end.

(** [struct.pack] of an unsigned little-endian integer on [size] bytes. *)
Fixpoint pack_le (size : nat) (n : N) : list byte :=
  match size with
  | O => []
  | S size => byte_of_N n :: pack_le size (n / 256)
  end.

Fixpoint unpack_le (b : list byte) : N :=
  match b with
  | [] => 0
  | x :: b => (Byte.to_N x + 256 * unpack_le b)%N
  end.

(** The size in bytes of the header-length field of a format version. *)
Definition length_size (major minor : byte) : option nat :=
  match major, minor with
  | x01, x00 => Some 2%nat
  | x02, x00 => Some 4%nat
  | x03, x00 => Some 4%nat
  | _, _ => None
  end.

(** The header of one format version: the magic string, the version, the
    length of what follows, the dictionary, spaces up to a multiple of
    the alignment, and a newline. *)
Definition wrap_header (header : string) (major : byte) (size : nat)
  : option (list byte) :=
  let hlen := (N.of_nat (String.length header) + 1)%N in
  let padlen :=
    (ARRAY_ALIGN - ((MAGIC_LEN + N.of_nat size + hlen) mod ARRAY_ALIGN))%N in
  if (hlen + padlen <? 256 ^ N.of_nat size)%N then
    Some (MAGIC_PREFIX ++ [major; x00] ++ pack_le size (hlen + padlen)
            ++ list_byte_of_string header
            ++ repeat x20 (N.to_nat padlen) ++ [x0a])
  else None.

(** Modelled from the spec: [np.save] of the numeric library, which is
    not under src/: the portable container of an array, shape and element
    type in a header followed by the raw bytes.  Version 1.0 where the
    header length fits two bytes, 2.0 otherwise. *)
Definition save (a : ndarray) : result (list byte) :=
  match wrap_header (header_dict a) x01 2 with
  | Some h => Ok (h ++ data a)
  | None =>
      match wrap_header (header_dict a) x02 4 with
      | Some h => Ok (h ++ data a)
      | None => Raise (Exn ValueError "Header length too big for version=(2, 0)")
      end
  end.

(** *** Reading it back *)

(** [s] without the prefix [p], if it starts with it. *)
Fixpoint strip_prefix (p s : string) : option string :=
  match p, s with
  | EmptyString, _ => Some s
  | String a p, String b s => if Ascii.eqb a b then strip_prefix p s else None
  | String _ _, EmptyString => None
  end.

Definition is_digit (c : ascii) : bool :=
  let n := N_of_ascii c in ((48 <=? n) && (n <=? 57))%N.

Definition digit_value (c : ascii) : N := (N_of_ascii c - 48)%N.

(** The dimensions after the opening parenthesis of the shape: [cur] is
    the number being read, [acc] the dimensions read so far, last first. *)
Fixpoint parse_dims (s : string) (cur : option N) (acc : list N)
  : option (list N * string) :=
  match s with
  | EmptyString => None
  | String c rest =>
      if is_digit c then
        parse_dims rest (Some (10 * default 0%N cur + digit_value c)%N) acc
      else
        match cur with
        | None =>
            if Ascii.eqb c ")" then
              match acc with [] => Some ([], rest) | _ => None end
            else None
        | Some n =>
            if Ascii.eqb c ")" then
              match acc with
              | [] => None
              | _ => Some (rev (n :: acc), rest)
              end
            else if Ascii.eqb c "," then
              match rest with
              | String d rest' =>
                  if Ascii.eqb d " " then parse_dims rest' None (n :: acc)
                  else if Ascii.eqb d ")" then
                    match acc with [] => Some ([n], rest') | _ => None end
                  else None
              | EmptyString => None
              end
            else None
        end
  end.

(** Spaces, then the newline that ends the header. *)
Fixpoint is_padding (s : string) : bool :=
  match s with
  | String c EmptyString => Ascii.eqb c "010"
  | String c rest => Ascii.eqb c " " && is_padding rest
  | EmptyString => false
  end.

Definition parse_bool (s : string) : option (bool * string) :=
  match strip_prefix "False" s with
  | Some rest => Some (false, rest)
  | None =>
      match strip_prefix "True" s with
      | Some rest => Some (true, rest)
      | None => None
      end
  end.

(** A type string: three characters of the table. *)
Definition parse_descr (s : string) : option (dtype * string) :=
  match s with
  | String a (String b (String c rest)) =>
      d ← dtype_of_descr (String a (String b (String c EmptyString)));
      Some (d, rest)
  | _ => None
  end.

(** The header dictionary as [save] lays it out. *)
Definition parse_header (s : string) : option (dtype * bool * list N) :=
  s ← strip_prefix "{'descr': '" s;
  '(d, s) ← parse_descr s;
  s ← strip_prefix "', 'fortran_order': " s;
  '(f, s) ← parse_bool s;
  s ← strip_prefix ", 'shape': (" s;
  '(dims, s) ← parse_dims s None [];
  s ← strip_prefix ", }" s;
  if is_padding s then Some (d, f, dims) else None.

Definition bad_file (msg : string) : exn := Exn ValueError msg.

Fixpoint bytes_eqb (a b : list byte) : bool :=
  match a, b with
  | [], [] => true
  | x :: a, y :: b => Byte.eqb x y && bytes_eqb a b
  | _, _ => false
  end.

(** Modelled from the spec: [np.load], the standard reader of the
    container (not under src/), on the headers [save] writes. *)
Definition load (b : list byte) : result ndarray :=
  match b with
  | m0 :: m1 :: m2 :: m3 :: m4 :: m5 :: major :: minor :: b =>
      if bytes_eqb [m0; m1; m2; m3; m4; m5] MAGIC_PREFIX then
        match length_size major minor with
        | Some size =>
            let hlen := N.to_nat (unpack_le (firstn size b)) in
            let header := firstn hlen (skipn size b) in
            let body := skipn hlen (skipn size b) in
            if (length header <? hlen)%nat then
              Raise (bad_file "EOF: reading array header")
            else
              match parse_header (string_of_list_byte header) with
              | Some (d, f, dims) =>
                  let a := Array d dims f [] in
                  let n := N.to_nat (nbytes a) in
                  if (length body <? n)%nat then
                    Raise (bad_file "Failed to read all data for array")
                  else Ok (Array d dims f (firstn n body))
              | None => Raise (bad_file "Cannot parse header")
              end
        | None => Raise (bad_file "we only support format version (1,0), (2,0), and (3,0)")
        end
      else Raise (bad_file "the magic string is not correct")
  | _ => Raise (bad_file "the magic string is not correct")
  end.
End np.

(** [torch.Tensor], dense and of a real element type: the device it
    lives on, whether it requires a gradient (gradients being recorded, as
    they are unless the caller turns them off), its element type, its
    shape and its elements' bytes in row-major order. *)
Module torch.
Inductive device := CPU | CUDA (index : N) | MPS.

(** The element types; numpy has no [bfloat16]. *)
Inductive scalar_type :=
| float16 | float32 | float64 | int32 | int64 | bfloat16.

Definition numpy_dtype (s : scalar_type) : option dtype :=
  match s with
  | float16 => Some Float16
  | float32 => Some Float32
  | float64 => Some Float64
  | int32 => Some Int32
  | int64 => Some Int64
  | bfloat16 => None
  end.

Record Tensor := Make {
  device_of : device;
  requires_grad : bool;
  dtype_of : scalar_type;
  shape : list N;
  data : list byte;
}.

(** [str(t.device)] *)
Definition device_str (d : device) : string :=
  match d with
  | CPU => "cpu"
  | CUDA index => "cuda:" +:+ np.repr_N index
  | MPS => "mps:0"
  end.

(** [t.cpu()]: the tensor in host memory, the rest unchanged. *)
Definition cpu (t : Tensor) : Tensor :=
  {| device_of := CPU; requires_grad := requires_grad t;
     dtype_of := dtype_of t; shape := shape t; data := data t |}.

Definition device_error (d : device) : exn :=
  Exn TypeError
    ("can't convert " +:+ device_str d
       +:+ " device type tensor to numpy. Use Tensor.cpu() to copy the tensor to host memory first.").

Definition requires_grad_error : exn :=
  Exn RuntimeError
    "Can't call numpy() on Tensor that requires grad. Use tensor.detach().numpy() instead.".

Definition unsupported_type_error : exn :=
  Exn TypeError "Got unsupported ScalarType BFloat16".

(** [t.numpy()]: the array of a tensor that is in host memory, requires
    no gradient and has an element type of numpy; an exception
    otherwise, the checks in this order. *)
Definition numpy (t : Tensor) : result np.ndarray :=
  match device_of t with
  | CPU =>
      if requires_grad t then Raise requires_grad_error
      else
        match numpy_dtype (dtype_of t) with
        | Some d => Ok (np.Array d (shape t) false (data t))
        | None => Raise unsupported_type_error
        end
  | d => Raise (device_error d)
  end.
End torch.

(** The objects found in the dictionary the model returns for an image. *)
Inductive pyobj :=
| ObjNone
| ObjStr (s : string)
| ObjList (items : list pyobj)
| ObjNdarray (a : np.ndarray)
| ObjTensor (t : torch.Tensor).

(** [len(o)] *)
Definition py_len (o : pyobj) : result nat :=
  match o with
  | ObjNone => Raise (Exn TypeError "object of type 'NoneType' has no len()")
  | ObjStr s => Ok (String.length s)
  | ObjList items => Ok (length items)
  | ObjNdarray a =>
      match np.shape a with
      | n :: _ => Ok (N.to_nat n)
      | [] => Raise (Exn TypeError "len() of unsized object")
      end
  | ObjTensor t =>
      match torch.shape t with
      | n :: _ => Ok (N.to_nat n)
      | [] => Raise (Exn TypeError "len() of a 0-d tensor")
      end
  end.

(** [d[key]] on a dictionary with string keys *)
Definition dict_getitem (d : gmap string pyobj) (key : string) : result pyobj :=
  match d !! key with
  | Some v => Ok v
  | None => Raise (Exn KeyError ("'" +:+ key +:+ "'"))
  end.

(** [l[0]] *)
Definition list_first {A} (l : list A) : result A :=
  match l with
  | x :: _ => Ok x
  | [] => Raise (Exn IndexError "list index out of range")
  end.

(** A decoded image in mode RGB. *)
Record Image := { width : N; height : N; pixels : list byte }.

(** ** The model object *)

(** The segmentation backbone held in [model.sam]: the variant whose
    weights it carries. *)
Module SAM.
Record t := Make { weights : pyval }.
End SAM.

(** [self.model]: the recorded variant [sam_type] and the backbone [sam]. *)
Module LangSAM.
Record t := Make { sam_type : pyval; sam : SAM.t }.
End LangSAM.

(** The dictionary [predict] returns. *)
Module Output.
Record t := Make { boxes : np.ndarray }.
End Output.

(** ** Effects of [predict]: the process-wide model object is read and
    rebuilt in place, lines go to the standard output and the model's
    operations are called.  A computation takes the model as it is, and
    gives its result or exception, the model as it leaves it, and the
    lines written and calls made, oldest first. *)

Inductive out_line :=
| OutInitialized
| OutStarting
| OutParams (sam_type : pyval) (box_threshold text_threshold : float)
    (text_prompt : pyval)
| OutUpdating (sam_type : pyval)
| OutNoMasks.

Inductive event :=
| Print (line : out_line)
| BuildModel (sam_type : pyval) (returned : bool)
| ModelPredict (images_pil : list Image) (texts_prompt : list pyval)
    (box_threshold text_threshold : float).

Definition M (A : Type) : Type :=
  LangSAM.t -> result A * LangSAM.t * list event.

Definition ret {A} (a : A) : M A := fun m => (Ok a, m, []).

Definition bind {A B} (c : M A) (k : A -> M B) : M B :=
  fun m =>
    match c m with
    | (Ok a, m', l) => let '(r, m'', l') := k a m' in (r, m'', l ++ l')
    | (Raise e, m', l) => (Raise e, m', l)
    end.

(** A pure step that may raise. *)
Definition lift {A} (r : result A) : M A := fun m => (r, m, []).

Definition get_model : M LangSAM.t := fun m => (Ok m, m, []).

Definition print (l : out_line) : M unit := fun m => (Ok tt, m, [Print l]).

Notation "x <<- c ;; k" := (bind c (fun x => k))
  (at level 20, c at level 99, k at level 200, only parsing).
Notation "c >>> k" := (bind c (fun _ => k))
  (at level 20, k at level 200, only parsing).

(** ** setup and predict *)

Section Predict.

(** [Image.open(BytesIO(b)).convert("RGB")] of the imaging library. *)
Variable pil_open_rgb : list byte -> result Image.

(** [model.predict(images_pil, texts_prompt, box_threshold, text_threshold)]
    of the loaded model: one dictionary per image, or an exception. *)
Variable model_predict :
  LangSAM.t -> list Image -> list pyval -> float -> float ->
  result (list (gmap string pyobj)).

(** [model.sam.build_model(sam_type)] of the loaded model: it returns or
    raises, and leaves the model as it made it. *)
Variable build_model : pyval -> LangSAM.t -> result unit * LangSAM.t.

(** [self.model.sam.build_model(sam_type)] *)
Definition call_build_model (sam_type : pyval) : M unit :=
  fun m =>
    let '(r, m') := build_model sam_type m in
    (r, m', [BuildModel sam_type (is_ok r)]).

(** [self.model.predict(...)] *)
Definition call_model_predict (images_pil : list Image)
    (texts_prompt : list pyval) (box_threshold text_threshold : float)
  : M (list (gmap string pyobj)) :=
  fun m =>
    (model_predict m images_pil texts_prompt box_threshold text_threshold,
     m,
     [ModelPredict images_pil texts_prompt box_threshold text_threshold]).

(** Modelled from the spec: the constructor [LangSAM(sam_type=...)]
    (package lang_sam, not under src/) gives a model of the variant. *)
Definition LangSAM_new (sam_type : pyval) : LangSAM.t :=
  {| LangSAM.sam_type := sam_type;
     LangSAM.sam := {| SAM.weights := sam_type |} |}.

Definition setup : LangSAM.t * list event :=
  (LangSAM_new (PyStr "sam2.1_hiera_small"), [Print OutInitialized]).

(** The [try] around the decoding of the image. *)
Definition open_image (image_bytes : list byte) : result Image :=
  match pil_open_rgb image_bytes with
  | Ok image_pil => Ok image_pil
  | Raise e => Raise (Exn ValueError ("Invalid image data: " +:+ exn_str e))
  end.

Definition boxes_type_error : exn :=
  Exn TypeError
    "Unexpected type for boxes. Expected numpy array or torch tensor.".

(** The [isinstance] cascade on [results['boxes']]; the tensor branch is
    [boxes.cpu().numpy()], whose exception, if any, leaves [predict]. *)
Definition normalize_boxes (boxes : pyobj) : result np.ndarray :=
  match boxes with
  | ObjNdarray a => Ok a
  | ObjTensor t => torch.numpy (torch.cpu t)
  | _ => Raise boxes_type_error
  end.

(** The switch of variant at the head of [predict]. *)
Definition update_sam_type (sam_type : pyval) : M unit :=
  m <<- get_model ;;
  if py_ne sam_type (LangSAM.sam_type m) then
    print (OutUpdating sam_type) >>>
    call_build_model sam_type
  else ret tt.

(** The end of [predict]: the test on the number of masks. *)
Definition return_boxes (results : gmap string pyobj) (boxes : np.ndarray)
  : M Output.t :=
  masks <<- lift (dict_getitem results "masks") ;;
  n <<- lift (py_len masks) ;;
  if Nat.eqb n 0 then
    print OutNoMasks >>>
    ret {| Output.boxes := boxes |}
  else ret {| Output.boxes := boxes |}.

Definition predict (inputs : Inputs.t) : M Output.t :=
  print OutStarting >>>
  print (OutParams (Inputs.sam_type inputs) (Inputs.box_threshold inputs)
           (Inputs.text_threshold inputs) (Inputs.text_prompt inputs)) >>>
  update_sam_type (Inputs.sam_type inputs) >>>
  image_pil <<- lift (open_image (Inputs.image_bytes inputs)) ;;
  results <<- call_model_predict [image_pil] [Inputs.text_prompt inputs]
                (Inputs.box_threshold inputs) (Inputs.text_threshold inputs) ;;
  results <<- lift (list_first results) ;;
  boxes <<- lift (dict_getitem results "boxes") ;;
  boxes <<- lift (normalize_boxes boxes) ;;
  return_boxes results boxes.

(** The part of [predict] up to [results = results[0]]. *)
Definition run_model (inputs : Inputs.t) : M (gmap string pyobj) :=
  print OutStarting >>>
  print (OutParams (Inputs.sam_type inputs) (Inputs.box_threshold inputs)
           (Inputs.text_threshold inputs) (Inputs.text_prompt inputs)) >>>
  update_sam_type (Inputs.sam_type inputs) >>>
  image_pil <<- lift (open_image (Inputs.image_bytes inputs)) ;;
  results <<- call_model_predict [image_pil] [Inputs.text_prompt inputs]
                (Inputs.box_threshold inputs) (Inputs.text_threshold inputs) ;;
  lift (list_first results).

(** The part of [predict] after it. *)
Definition finish (results : gmap string pyobj) : M Output.t :=
  boxes <<- lift (dict_getitem results "boxes") ;;
  boxes <<- lift (normalize_boxes boxes) ;;
  return_boxes results boxes.

(** A sequence of calls of [predict] on the one model: each call starts
    from the model the call before left, whether it returned or raised. *)
Fixpoint serve (calls : list Inputs.t) (m : LangSAM.t)
  : LangSAM.t * list event :=
  match calls with
  | [] => (m, [])
  | inputs :: calls =>
      let '(_, m', l) := predict inputs m in
      let '(m'', l') := serve calls m' in
      (m'', l ++ l')
  end.

End Predict.

(** Modelled from the spec: the rebuild operation [build_model] of the
    model's backbone (package lang_sam, not under src/).  The model is
    rebuilt in place for the new variant, and the variant the model
    records is the one built last; a failure is raised to the request,
    and the state it leaves is not fixed.  [load_failure] tells whether
    loading the weights of a variant fails, and with what; [half_built]
    is the model a failed rebuild leaves behind. *)
Definition build_model_spec (load_failure : pyval -> option exn)
    (half_built : pyval -> LangSAM.t -> LangSAM.t)
    (sam_type : pyval) (m : LangSAM.t) : result unit * LangSAM.t :=
  match load_failure sam_type with
  | None =>
      (Ok tt, {| LangSAM.sam_type := sam_type;
                 LangSAM.sam := {| SAM.weights := sam_type |} |})
  | Some e => (Raise e, half_built sam_type m)
  end.

(** ** Reading a trace *)

Definition is_build (e : event) : bool :=
  match e with BuildModel _ _ => true | _ => false end.

(** Number of calls of [build_model]. *)
Definition builds (l : list event) : nat :=
  length (List.filter is_build l).

(** The last call of [build_model]: its argument and whether it returned. *)
Fixpoint last_build (l : list event) : option (pyval * bool) :=
  match l with
  | [] => None
  | e :: l =>
      match last_build l with
      | Some b => Some b
      | None =>
          match e with
          | BuildModel v ok => Some (v, ok)
          | _ => None
          end
      end
  end.

Definition is_model_predict (e : event) : bool :=
  match e with ModelPredict _ _ _ _ => true | _ => false end.




(** ** encode_response *)

Record Response := { content : list byte; media_type : string }.

Definition encode_response (output : Output.t) : result Response :=
  match np.save (Output.boxes output) with
  | Ok buffer =>
      Ok {| content := buffer; media_type := "application/octet-stream" |}
  | Raise e => Raise (Exn ValueError ("Error encoding boxes: " +:+ exn_str e))
  end.

(** ** A small environment to run the adapter in

    Stand-ins for the interpreter, the imaging library and the model, used
    to evaluate the definitions above on concrete requests. *)
Module Stub.

Fixpoint scan_decimal (s : string) (mantissa : N) (scale : option N)
    (after_digit : bool) : option (N * N) :=
  match s with
  | EmptyString =>
      if after_digit then Some (mantissa, default 1%N scale) else None
  | String c rest =>
      if np.is_digit c then
        scan_decimal rest (10 * mantissa + np.digit_value c)%N
          (N.mul 10 <$> scale) true
      else if Ascii.eqb c "." then
        match scale with
        | None => if after_digit then scan_decimal rest mantissa (Some 1%N) false
                  else None
        | Some _ => None
        end
      else None
  end.

(** [float] on the plain decimal numerals [d+] and [d+.d+] of at most
    fifteen digits, where the quotient of the two exactly represented
    integers is the correctly rounded value; any other string is rejected
    here (the interpreter accepts more: signs, exponents, [inf], [nan]). *)
Definition float_of_str (s : string) : option float :=
  match scan_decimal s 0 None false with
  | Some (mantissa, scale) =>
      if (mantissa <? 10 ^ 15)%N then
        Some (PrimFloat.div
                (PrimFloat.of_uint63 (Uint63.of_Z (Z.of_N mantissa)))
                (PrimFloat.of_uint63 (Uint63.of_Z (Z.of_N scale))))
      else None
  | None => None
  end.

(** [repr] of a string without quotes, backslashes and control
    characters. *)
Definition repr_str (s : string) : string := "'" +:+ s +:+ "'".

Definition PNG_SIGNATURE : list byte :=
  [x89; x50; x4e; x47; x0d; x0a; x1a; x0a].

(** An image decoder that knows one format by its signature and gives a
    black pixel for it. *)
Definition pil_open_rgb (b : list byte) : result Image :=
  if np.bytes_eqb (firstn 8 b) PNG_SIGNATURE then
    Ok {| width := 1; height := 1; pixels := [x00; x00; x00] |}
  else
    Raise (Exn (OtherError "UnidentifiedImageError")
             "cannot identify image file").

Definition one_box : np.ndarray :=
  np.Array Float32 [1%N; 4%N] false
    [x00; x00; x20; x41;  x00; x00; xa0; x41;
     x00; x00; x48; x42;  x00; x00; x70; x42].

(** The same box as a tensor on the accelerator. *)
Definition one_box_tensor : torch.Tensor :=
  torch.Make torch.MPS false torch.float32 (np.shape one_box)
    (np.data one_box).

(** The same box as a tensor that still requires a gradient. *)
Definition one_box_grad : torch.Tensor :=
  torch.Make torch.CPU true torch.float32 (np.shape one_box)
    (np.data one_box).

(** Three class identifiers as an array of integers. *)
Definition three_ids : np.ndarray :=
  np.Array Int64 [3%N] false
    [x01; x00; x00; x00; x00; x00; x00; x00;
     x02; x00; x00; x00; x00; x00; x00; x00;
     x03; x00; x00; x00; x00; x00; x00; x00].

Definition no_box : np.ndarray := np.Array Float32 [0%N; 4%N] false [].

Definition one_mask : np.ndarray :=
  np.Array Float32 [1%N; 1%N; 1%N] false [x00; x00; x80; x3f].

(** A detector that finds one object for a prompt and none for the empty
    prompt; boxes come as a tensor when there is a detection. *)
Definition detect (text_prompt : pyval) : gmap string pyobj :=
  match text_prompt with
  | PyStr EmptyString =>
      {[ "boxes" := ObjNdarray no_box; "masks" := ObjList [] ]}
  | _ =>
      {[ "boxes" := ObjTensor one_box_tensor;
         "masks" := ObjList [ObjNdarray one_mask] ]}
  end.

Definition model_predict (m : LangSAM.t) (images_pil : list Image)
    (texts_prompt : list pyval) (box_threshold text_threshold : float)
  : result (list (gmap string pyobj)) :=
  Ok (detect <$> texts_prompt).

Definition SAM_MODELS : list string :=
  ["sam2.1_hiera_tiny"; "sam2.1_hiera_small"; "sam2.1_hiera_base_plus";
   "sam2.1_hiera_large"].

(** Only the variants of the table can be built. *)
Definition load_failure (sam_type : pyval) : option exn :=
  match sam_type with
  | PyStr s =>
      if existsb (String.eqb s) SAM_MODELS then None
      else Some (Exn KeyError (repr_str s))
  | PyNone => Some (Exn KeyError "None")
  | PyUploadFile _ => Some (Exn KeyError "UploadFile")
  end.

(** A failed rebuild leaves the model as it was. *)
Definition half_built (sam_type : pyval) (m : LangSAM.t) : LangSAM.t := m.

Definition build_model : pyval -> LangSAM.t -> result unit * LangSAM.t :=
  build_model_spec load_failure half_built.

(** A model that gives its boxes and masks as plain lists. *)
Definition model_predict_lists (m : LangSAM.t) (images_pil : list Image)
    (texts_prompt : list pyval) (box_threshold text_threshold : float)
  : result (list (gmap string pyobj)) :=
  Ok ((fun _ => {[ "boxes" := ObjList []; "masks" := ObjList [] ]})
        <$> texts_prompt).

(** Some requests. *)
Definition png : UploadFile :=
  {| upload_id := 1; upload_file := PNG_SIGNATURE ++ [x00; x00] |}.

Definition garbage : UploadFile :=
  {| upload_id := 2; upload_file := [x47; x49; x46] |}.

Definition request_dog : gmap string form_value :=
  {[ "sam_type" := FormStr "sam2.1_hiera_small";
     "text_prompt" := FormStr "dog";
     "image" := FormFile png ]}.

Definition request_bad_threshold : gmap string form_value :=
  {[ "box_threshold" := FormStr "abc";
     "text_prompt" := FormStr "dog";
     "image" := FormFile png ]}.

Definition request_nothing : gmap string form_value :=
  {[ "text_threshold" := FormStr "high" ]}.

Definition request_no_sam_type : gmap string form_value :=
  {[ "text_prompt" := FormStr "dog"; "image" := FormFile png ]}.

(** Some decoded requests. *)
Definition inputs_dog : Inputs.t :=
  Inputs.Make (PyStr "sam2.1_hiera_small") 0.3 0.25 (upload_file png)
    (PyStr "dog").

Definition inputs_empty_prompt : Inputs.t :=
  Inputs.Make (PyStr "sam2.1_hiera_small") 0.3 0.25 (upload_file png)
    (PyStr EmptyString).

Definition inputs_large : Inputs.t :=
  Inputs.Make (PyStr "sam2.1_hiera_large") 0.3 0.25 (upload_file png)
    (PyStr "dog").

Definition inputs_no_sam_type : Inputs.t :=
  Inputs.Make PyNone 0.3 0.25 (upload_file png) (PyStr "dog").

Definition inputs_garbage : Inputs.t :=
  Inputs.Make (PyStr "sam2.1_hiera_small") 0.3 0.25 (upload_file garbage)
    (PyStr "dog").

Definition inputs_garbage_unknown : Inputs.t :=
  Inputs.Make (PyStr "sam3") 0.3 0.25 (upload_file garbage) (PyStr "dog").

(** More requests: the image sent as a text field, thresholds out of the
    unit interval, a threshold sent as a file. *)
Definition request_text_image : gmap string form_value :=
  {[ "text_prompt" := FormStr "dog"; "image" := FormStr "dog.png" ]}.

Definition request_wide_thresholds : gmap string form_value :=
  {[ "box_threshold" := FormStr "17";
     "text_threshold" := FormStr "2.5";
     "image" := FormFile png ]}.

Definition request_file_threshold : gmap string form_value :=
  {[ "box_threshold" := FormFile garbage; "image" := FormFile png ]}.

(** A model that gives the same answer to every call. *)
Definition model_predict_const (answer : result (list (gmap string pyobj)))
    (m : LangSAM.t) (images_pil : list Image) (texts_prompt : list pyval)
    (box_threshold text_threshold : float)
  : result (list (gmap string pyobj)) :=
  answer.

(** The model after [setup], and [predict] in this environment. *)
Definition model0 : LangSAM.t := fst setup.

Definition predict : Inputs.t -> M Output.t :=
  predict pil_open_rgb model_predict build_model.

Definition run_model : Inputs.t -> M (gmap string pyobj) :=
  run_model pil_open_rgb model_predict build_model.

Definition serve : list Inputs.t -> LangSAM.t -> LangSAM.t * list event :=
  serve pil_open_rgb model_predict build_model.

End Stub.

(** ** Notions and tactics of the proofs *)

(** The number a run of digits denotes, continuing from [v]. *)
Definition digits_value (ds : list ascii) (v : N) : N :=
  fold_left (fun a c => (10 * a + np.digit_value c)%N) ds v.

(** The spaces and the newline that end a header. *)
Definition padding (padlen : nat) : list byte := repeat x20 padlen ++ [x0a].

(** Closes a case of [predict_effects]: the events after the switch of
    variant are read off the goal. *)
Ltac effects_done :=
  eexists _, _; split;
  [ cbn; repeat f_equal; reflexivity
  | reflexivity ].

(** Closes a case of [predict_reaches_model]. *)
Ltac reached := eexists _, _; cbn; reflexivity.

(** * Properties *)

(** ** decode_request *)

Section DecodeFacts.

Variable float_of_str : string -> option float.
Variable repr_str : string -> string.

Local Abbreviation to_float := (py_float float_of_str repr_str).
Local Abbreviation field := (float_field float_of_str repr_str).
Local Abbreviation bad := (malformed float_of_str repr_str).
Local Abbreviation decode := (decode_request float_of_str repr_str).

Lemma float_field_absent (request : gmap string form_value) key default :
  request !! key = None -> field request key default = Ok default.
Proof. intros H. unfold float_field. now rewrite H. Qed.

Lemma float_field_well_formed (request : gmap string form_value) key default :
  bad request key = false ->
  exists f, field request key default = Ok f.
Proof.
  unfold malformed, float_field.
  destruct (request !! key) as [v|]; [|eauto].
  destruct (to_float (of_form v)); [eauto | discriminate].
Qed.

Lemma float_field_malformed (request : gmap string form_value) key default :
  bad request key = true ->
  exists v e, request !! key = Some v /\ to_float (of_form v) = Raise e
              /\ field request key default = Raise e.
Proof.
  unfold malformed, float_field.
  destruct (request !! key) as [v|]; [|discriminate].
  destruct (to_float (of_form v)) as [f|e] eqn:E; [discriminate|].
  intros _. exists v, e. auto.
Qed.

(** What [float] raises is never the exception of the missing image. *)
Lemma py_float_not_no_image v e :
  to_float v = Raise e -> e <> no_image_error.
Proof.
  unfold py_float, no_image_error.
  destruct v as [|s|u]; try (intros [= <-]; discriminate).
  destruct (float_of_str s); intros [= <-]; discriminate.
Qed.

Lemma decode_request_absent_image (request : gmap string form_value) bt tt :
  request !! "image" = None ->
  field request "box_threshold" 0.3 = Ok bt ->
  field request "text_threshold" 0.25 = Ok tt ->
  decode request = Raise no_image_error.
Proof.
  intros Hi Hb Ht. unfold decode_request.
  rewrite Hb, Ht. cbn. unfold form_get. now rewrite Hi.
Qed.

(** C3: when the image field is absent, [decode_request] fails with an
    input error (the missing image, or a threshold that [float] rejects),
    whatever the other fields are. *)
Theorem decode_request_missing_image (request : gmap string form_value) :
  request !! "image" = None ->
  exists e, decode request = Raise e
            /\ InputError float_of_str repr_str e.
Proof.
  intros Hi.
  destruct (bad request "box_threshold") eqn:Eb.
  { destruct (float_field_malformed _ _ 0.3%float Eb) as (v & e & _ & Hv & He).
    exists e. split; [|right; eauto].
    unfold decode_request. now rewrite He. }
  destruct (float_field_well_formed _ _ 0.3%float Eb) as [bt Hb].
  destruct (bad request "text_threshold") eqn:Et.
  { destruct (float_field_malformed _ _ 0.25%float Et) as (v & e & _ & Hv & He).
    exists e. split; [|right; eauto].
    unfold decode_request. now rewrite Hb, He. }
  destruct (float_field_well_formed _ _ 0.25%float Et) as [tt Ht].
  exists no_image_error. split; [|now left].
  eapply decode_request_absent_image; eauto.
Qed.

(** C8: the thresholds are parsed before the image is looked for: with a
    malformed threshold and no image, [decode_request] raises what [float]
    raised on the first malformed threshold, not the missing-image
    error. *)
Theorem decode_request_parses_thresholds_first
    (request : gmap string form_value) :
  request !! "image" = None ->
  bad request "box_threshold" = true \/ bad request "text_threshold" = true ->
  exists key v e,
    key = (if bad request "box_threshold" then "box_threshold"
           else "text_threshold")
    /\ request !! key = Some v
    /\ to_float (of_form v) = Raise e
    /\ decode request = Raise e
    /\ e <> no_image_error.
Proof.
  intros _ Hbad.
  destruct (bad request "box_threshold") eqn:Eb.
  - destruct (float_field_malformed _ _ 0.3%float Eb) as (v & e & Hk & Hv & He).
    exists "box_threshold", v, e. repeat split; auto.
    + unfold decode_request. now rewrite He.
    + eapply py_float_not_no_image; eauto.
  - destruct Hbad as [|Et]; [discriminate|].
    destruct (float_field_well_formed _ _ 0.3%float Eb) as [bt Hb].
    destruct (float_field_malformed _ _ 0.25%float Et) as (v & e & Hk & Hv & He).
    exists "text_threshold", v, e. repeat split; auto.
    + unfold decode_request. now rewrite Hb, He.
    + eapply py_float_not_no_image; eauto.
Qed.

(** C2, amended: a request with an uploaded image whose thresholds are each
    absent or accepted by [float] is decoded without an exception, the
    image's bytes are read, and an absent [box_threshold] is 0.3, an
    absent [text_threshold] 0.25. *)
Theorem decode_request_well_formed
    (request : gmap string form_value) (u : UploadFile) :
  request !! "image" = Some (FormFile u) ->
  bad request "box_threshold" = false ->
  bad request "text_threshold" = false ->
  exists inputs,
    decode request = Ok inputs
    /\ Inputs.image_bytes inputs = upload_file u
    /\ (request !! "box_threshold" = None ->
        Inputs.box_threshold inputs = 0.3%float)
    /\ (request !! "text_threshold" = None ->
        Inputs.text_threshold inputs = 0.25%float).
Proof.
  intros Hi Eb Et.
  destruct (float_field_well_formed _ _ 0.3%float Eb) as [bt Hb].
  destruct (float_field_well_formed _ _ 0.25%float Et) as [tt Ht].
  eexists. split; [|split; [|split]].
  - unfold decode_request, rbind. rewrite Hb, Ht.
    unfold form_get. rewrite Hi. reflexivity.
  - reflexivity.
  - intros Hn. cbn. rewrite (float_field_absent _ _ 0.3%float Hn) in Hb.
    congruence.
  - intros Hn. cbn. rewrite (float_field_absent _ _ 0.25%float Hn) in Ht.
    congruence.
Qed.

End DecodeFacts.

(** C2, as stated, fails: a request with an image and a prompt whose
    [box_threshold] is not a number makes [decode_request] raise. *)
Lemma decode_request_bad_threshold_raises :
  Stub.request_bad_threshold !! "image" = Some (FormFile Stub.png)
  /\ is_ok (Stub.pil_open_rgb (upload_file Stub.png)) = true
  /\ Stub.request_bad_threshold !! "text_prompt" = Some (FormStr "dog")
  /\ decode_request Stub.float_of_str Stub.repr_str Stub.request_bad_threshold
     = Raise (Exn ValueError "could not convert string to float: 'abc'").
Proof. repeat split; vm_compute; reflexivity. Qed.

Lemma decode_request_well_formed_witness :
  exists inputs,
    decode_request Stub.float_of_str Stub.repr_str Stub.request_dog = Ok inputs
    /\ Inputs.image_bytes inputs = upload_file Stub.png
    /\ (Stub.request_dog !! "box_threshold" = None ->
        Inputs.box_threshold inputs = 0.3%float)
    /\ (Stub.request_dog !! "text_threshold" = None ->
        Inputs.text_threshold inputs = 0.25%float).
Proof.
  apply (decode_request_well_formed
           Stub.float_of_str Stub.repr_str Stub.request_dog Stub.png);
    vm_compute; reflexivity.
Defined.

Lemma decode_request_missing_image_witness :
  exists e,
    decode_request Stub.float_of_str Stub.repr_str Stub.request_nothing = Raise e
    /\ InputError Stub.float_of_str Stub.repr_str e.
Proof.
  apply (decode_request_missing_image
           Stub.float_of_str Stub.repr_str Stub.request_nothing).
  vm_compute; reflexivity.
Defined.

Lemma decode_request_parses_thresholds_first_witness :
  exists key v e,
    key = (if malformed Stub.float_of_str Stub.repr_str
                Stub.request_nothing "box_threshold"
           then "box_threshold" else "text_threshold")
    /\ Stub.request_nothing !! key = Some v
    /\ py_float Stub.float_of_str Stub.repr_str (of_form v) = Raise e
    /\ decode_request Stub.float_of_str Stub.repr_str Stub.request_nothing
       = Raise e
    /\ e <> no_image_error.
Proof.
  apply (decode_request_parses_thresholds_first
           Stub.float_of_str Stub.repr_str Stub.request_nothing).
  - vm_compute; reflexivity.
  - right. vm_compute; reflexivity.
Defined.

(** ** predict *)




Lemma builds_app l l' : builds (l ++ l') = (builds l + builds l')%nat.
Proof. unfold builds. now rewrite List.filter_app, List.length_app. Qed.

Section PredictFacts.

Variable float_of_str : string -> option float.
Variable repr_str : string -> string.
Variable pil_open_rgb : list byte -> result Image.
Variable model_predict :
  LangSAM.t -> list Image -> list pyval -> float -> float ->
  result (list (gmap string pyobj)).
Variable build_model : pyval -> LangSAM.t -> result unit * LangSAM.t.

Local Abbreviation update := (update_sam_type build_model).
Local Abbreviation run_to_results :=
  (run_model pil_open_rgb model_predict build_model).
Local Abbreviation run :=
  (predict pil_open_rgb model_predict build_model).
Local Abbreviation open := (open_image pil_open_rgb).

(** [predict] is [run_model] followed by [finish]. *)
Lemma predict_split inputs m :
  run inputs m = bind (run_to_results inputs) finish m.
Proof.
  unfold predict, run_model, finish, bind, print.
  destruct (update _ m) as [[[[]|e] m1] l1]; [|reflexivity].
  unfold lift, call_model_predict.
  destruct (open _) as [img|e]; [|reflexivity].
  destruct (model_predict _ _ _ _ _) as [rs|e]; [|reflexivity].
  destruct (list_first rs) as [r|e]; [|reflexivity].
  destruct (dict_getitem r "boxes") as [b|e]; [|now rewrite ?app_nil_r].
  destruct (normalize_boxes b) as [a|e]; [|now rewrite ?app_nil_r].
  destruct (return_boxes r a m1) as [[r' m'] l'].
  now rewrite ?app_nil_r, <- ?app_assoc.
Qed.

Lemma return_boxes_sized (results : gmap string pyobj) boxes masks n m :
  results !! "masks" = Some masks ->
  py_len masks = Ok n ->
  return_boxes results boxes m
  = (Ok {| Output.boxes := boxes |}, m,
     if Nat.eqb n 0 then [Print OutNoMasks] else []).
Proof.
  intros Hm Hn. unfold return_boxes, bind, lift, dict_getitem.
  rewrite Hm, Hn. now destruct (Nat.eqb n 0).
Qed.

Lemma finish_sized (results : gmap string pyobj) b a masks n m :
  results !! "boxes" = Some b ->
  normalize_boxes b = Ok a ->
  results !! "masks" = Some masks ->
  py_len masks = Ok n ->
  finish results m
  = (Ok {| Output.boxes := a |}, m,
     if Nat.eqb n 0 then [Print OutNoMasks] else []).
Proof.
  intros Hb Ha Hm Hn. unfold finish, bind, lift, dict_getitem at 1.
  rewrite Hb, Ha, (return_boxes_sized _ _ _ _ _ Hm Hn). reflexivity.
Qed.

Lemma finish_unexpected (results : gmap string pyobj) b e m :
  results !! "boxes" = Some b ->
  normalize_boxes b = Raise e ->
  finish results m = (Raise e, m, []).
Proof.
  intros Hb He. unfold finish, bind, lift, dict_getitem.
  now rewrite Hb, He.
Qed.

(** Once the model has answered, [predict] ends as [finish] does. *)
Lemma predict_after_results inputs m results m' l r m'' l' :
  run_to_results inputs m = (Ok results, m', l) ->
  finish results m' = (r, m'', l') ->
  run inputs m = (r, m'', l ++ l').
Proof.
  intros Hr Hf. rewrite predict_split. unfold bind. now rewrite Hr, Hf.
Qed.

(** *** The switch of variant *)

Lemma update_same v m :
  py_ne v (LangSAM.sam_type m) = false -> update v m = (Ok tt, m, []).
Proof. intros H. unfold update_sam_type, bind, get_model. now rewrite H. Qed.

Lemma update_differs v m :
  py_ne v (LangSAM.sam_type m) = true ->
  update v m
  = (fst (build_model v m), snd (build_model v m),
     [Print (OutUpdating v); BuildModel v (is_ok (fst (build_model v m)))]).
Proof.
  intros H.
  unfold update_sam_type, bind, get_model, print, call_build_model.
  rewrite H. now destruct (build_model v m) as [[[]|e] m'].
Qed.

(** The model and the rebuilds of a call are those of its switch of
    variant. *)
Lemma predict_effects inputs m :
  exists r l',
    run inputs m
    = (r, snd (fst (update (Inputs.sam_type inputs) m)),
       [Print OutStarting;
        Print (OutParams (Inputs.sam_type inputs)
                 (Inputs.box_threshold inputs) (Inputs.text_threshold inputs)
                 (Inputs.text_prompt inputs))]
         ++ snd (update (Inputs.sam_type inputs) m) ++ l')
    /\ List.filter is_build l' = [].
Proof.
  unfold predict, bind, print.
  destruct (update _ m) as [[[[]|e] m1] l1]; cbn [fst snd].
  2:{ exists (Raise e), []. now rewrite app_nil_r. }
  unfold lift, call_model_predict, return_boxes, bind, lift.
  destruct (open _) as [img|e]; [|effects_done].
  destruct (model_predict _ _ _ _ _) as [rs|e]; [|effects_done].
  destruct (list_first rs) as [r|e]; [|effects_done].
  destruct (dict_getitem r "boxes") as [b|e]; [|effects_done].
  destruct (normalize_boxes b) as [a|e]; [|effects_done].
  destruct (dict_getitem r "masks") as [masks|e]; [|effects_done].
  destruct (py_len masks) as [n|e]; [|effects_done].
  destruct (Nat.eqb n 0); effects_done.
Qed.

Lemma predict_model inputs m :
  snd (fst (run inputs m)) = snd (fst (update (Inputs.sam_type inputs) m)).
Proof. destruct (predict_effects inputs m) as (r & l' & -> & _). reflexivity. Qed.

Lemma predict_build_events inputs m :
  List.filter is_build (snd (run inputs m))
  = List.filter is_build (snd (update (Inputs.sam_type inputs) m)).
Proof.
  destruct (predict_effects inputs m) as (r & l' & -> & H). cbn [snd].
  rewrite !List.filter_app, H. cbn. now rewrite app_nil_r.
Qed.

(** [t.cpu().numpy()] does not depend on the device: it gives the array
    of the tensor's element type, shape and bytes when the tensor requires
    no gradient and numpy has its element type, and raises otherwise. *)
Lemma numpy_cpu t :
  torch.numpy (torch.cpu t)
  = if torch.requires_grad t then Raise torch.requires_grad_error
    else
      match torch.numpy_dtype (torch.dtype_of t) with
      | Some d => Ok (np.Array d (torch.shape t) false (torch.data t))
      | None => Raise torch.unsupported_type_error
      end.
Proof. reflexivity. Qed.

(** C4, amended: [predict] turns the model's boxes into a plain array of
    the element type, shape and content the model gave, without reshaping
    or casting: a plain array is passed through as it is; a tensor that
    [.cpu().numpy()] accepts (no gradient required, an element type of
    numpy), whatever its device, is converted to the array of the same
    element type, shape and bytes; a tensor it does not accept makes
    [predict] raise the conversion's exception ([RuntimeError] when the
    tensor requires a gradient, [TypeError] for an element type numpy
    lacks); and any other object makes [predict] raise a [TypeError]. *)
Theorem predict_normalizes_boxes inputs m results m' l b :
  run_to_results inputs m = (Ok results, m', l) ->
  results !! "boxes" = Some b ->
  match b with
  | ObjNdarray a =>
      normalize_boxes b = Ok a
      /\ run inputs m
         = (let '(r, m'', l') := return_boxes results a m' in (r, m'', l ++ l'))
      /\ forall output, fst (fst (run inputs m)) = Ok output ->
                        Output.boxes output = a
  | ObjTensor t =>
      match torch.numpy (torch.cpu t) with
      | Ok a =>
          torch.requires_grad t = false
          /\ torch.numpy_dtype (torch.dtype_of t) = Some (np.dtype_of a)
          /\ np.shape a = torch.shape t
          /\ np.data a = torch.data t
          /\ normalize_boxes b = Ok a
          /\ run inputs m
             = (let '(r, m'', l') := return_boxes results a m' in
                (r, m'', l ++ l'))
          /\ forall output, fst (fst (run inputs m)) = Ok output ->
                            Output.boxes output = a
      | Raise e =>
          ((torch.requires_grad t = true
            /\ e = torch.requires_grad_error /\ exn_cls e = RuntimeError)
           \/ (torch.requires_grad t = false
               /\ torch.numpy_dtype (torch.dtype_of t) = None
               /\ e = torch.unsupported_type_error /\ exn_cls e = TypeError))
          /\ run inputs m = (Raise e, m', l)
      end
  | _ =>
      run inputs m = (Raise boxes_type_error, m', l)
      /\ exn_cls boxes_type_error = TypeError
  end.
Proof.
  intros Hr Hb.
  assert (Hnorm : forall a, normalize_boxes b = Ok a ->
            run inputs m
            = (let '(r, m'', l') := return_boxes results a m' in
               (r, m'', l ++ l'))
            /\ forall output, fst (fst (run inputs m)) = Ok output ->
                              Output.boxes output = a).
  { intros a Ha.
    assert (Hf : finish results m' = return_boxes results a m').
    { unfold finish, bind, lift, dict_getitem at 1. rewrite Hb, Ha.
      now destruct (return_boxes results a m') as [[? ?] ?]. }
    destruct (return_boxes results a m') as [[r m''] l'] eqn:Er.
    rewrite (predict_after_results _ _ _ _ _ _ _ _ Hr Hf).
    split; [reflexivity|]. cbn. intros output ->.
    revert Er. unfold return_boxes, bind, lift.
    destruct (dict_getitem results "masks") as [masks|]; [|discriminate].
    destruct (py_len masks) as [n|]; [|discriminate].
    destruct (Nat.eqb n 0); cbn; now intros [= <- _ _]. }
  assert (Hbad : forall e, normalize_boxes b = Raise e ->
            run inputs m = (Raise e, m', l)).
  { intros e He.
    rewrite (predict_after_results _ _ _ _ _ _ _ _ Hr
               (finish_unexpected _ _ _ _ Hb He)).
    now rewrite app_nil_r. }
  destruct b as [| |items|a|t]; try (split; [now apply Hbad | reflexivity]).
  - destruct (Hnorm a eq_refl). auto.
  - cbn [normalize_boxes] in Hnorm, Hbad. revert Hnorm Hbad.
    rewrite numpy_cpu.
    destruct (torch.requires_grad t) eqn:Hg.
    { intros _ Hbad. split; [left; auto | now apply Hbad]. }
    destruct (torch.numpy_dtype (torch.dtype_of t)) as [d|] eqn:Hd.
    + intros Hnorm _. destruct (Hnorm _ eq_refl) as [Hrun Hout].
      cbn [np.dtype_of np.shape np.data normalize_boxes].
      rewrite numpy_cpu, Hg, Hd. repeat split; auto.
    + intros _ Hbad. split; [right; auto | now apply Hbad].
Qed.

(** C5, amended: when the model's result has no mask and its boxes are
    an array, or a tensor that [.cpu().numpy()] converts to one, [predict]
    returns the boxes and does not raise; the model is left as it was and
    one more line is printed. *)
Theorem predict_zero_masks inputs m results m' l b a masks :
  run_to_results inputs m = (Ok results, m', l) ->
  results !! "boxes" = Some b ->
  normalize_boxes b = Ok a ->
  results !! "masks" = Some masks ->
  py_len masks = Ok 0%nat ->
  run inputs m = (Ok {| Output.boxes := a |}, m', l ++ [Print OutNoMasks]).
Proof.
  intros Hr Hb Ha Hm Hn.
  exact (predict_after_results _ _ _ _ _ _ _ _ Hr
           (finish_sized _ _ _ _ _ m' Hb Ha Hm Hn)).
Qed.

(** C10: whatever the number of masks, [predict] returns the dictionary
    with the normalized boxes and leaves the model as it was: the branch
    for no mask and the other one give the same value, and differ only by
    the line the first one prints. *)
Theorem predict_masks_irrelevant inputs m results m' l b a masks n :
  run_to_results inputs m = (Ok results, m', l) ->
  results !! "boxes" = Some b ->
  normalize_boxes b = Ok a ->
  results !! "masks" = Some masks ->
  py_len masks = Ok n ->
  fst (run inputs m) = (Ok {| Output.boxes := a |}, m')
  /\ snd (run inputs m)
     = l ++ (if Nat.eqb n 0 then [Print OutNoMasks] else [])
  /\ forall boxes m1,
       fst (return_boxes results boxes m1)
       = (Ok {| Output.boxes := boxes |}, m1).
Proof.
  intros Hr Hb Ha Hm Hn.
  rewrite (predict_after_results _ _ _ _ _ _ _ _ Hr
             (finish_sized _ _ _ _ _ m' Hb Ha Hm Hn)).
  repeat split. intros boxes m1.
  now rewrite (return_boxes_sized _ _ _ _ _ Hm Hn).
Qed.

(** A call whose switch of variant returns and whose image decodes calls
    the model with that image. *)
Lemma predict_reaches_model inputs m m1 l1 image_pil :
  update (Inputs.sam_type inputs) m = (Ok tt, m1, l1) ->
  open (Inputs.image_bytes inputs) = Ok image_pil ->
  exists r l',
    run inputs m
    = (r, m1,
       Print OutStarting
         :: Print (OutParams (Inputs.sam_type inputs)
                     (Inputs.box_threshold inputs)
                     (Inputs.text_threshold inputs)
                     (Inputs.text_prompt inputs))
         :: l1
         ++ ModelPredict [image_pil] [Inputs.text_prompt inputs]
              (Inputs.box_threshold inputs) (Inputs.text_threshold inputs)
         :: l').
Proof.
  intros Hu Ho.
  unfold predict, bind, print, lift, call_model_predict, return_boxes,
    bind, lift.
  rewrite Hu, Ho.
  destruct (model_predict _ _ _ _ _) as [rs|e]; [|reached].
  destruct (list_first rs) as [r|e]; [|reached].
  destruct (dict_getitem r "boxes") as [b|e]; [|reached].
  destruct (normalize_boxes b) as [a|e]; [|reached].
  destruct (dict_getitem r "masks") as [masks|e]; [|reached].
  destruct (py_len masks) as [n|e]; [|reached].
  destruct (Nat.eqb n 0); reached.
Qed.

(** C7, amended: when the switch of variant, if there is one, does not
    fail, image bytes that do not decode make [predict] raise a
    [ValueError] whose message ends with the decoder's, before the model is
    called; and bytes that decode pass the [try] and reach the model. *)
Theorem predict_invalid_image inputs m :
  py_ne (Inputs.sam_type inputs) (LangSAM.sam_type m) = false
  \/ fst (build_model (Inputs.sam_type inputs) m) = Ok tt ->
  (forall e,
     pil_open_rgb (Inputs.image_bytes inputs) = Raise e ->
     fst (fst (run inputs m))
     = Raise (Exn ValueError ("Invalid image data: " +:+ exn_str e))
     /\ List.filter is_model_predict (snd (run inputs m)) = [])
  /\ (forall image_pil,
        pil_open_rgb (Inputs.image_bytes inputs) = Ok image_pil ->
        open (Inputs.image_bytes inputs) = Ok image_pil
        /\ List.In
             (ModelPredict [image_pil] [Inputs.text_prompt inputs]
                (Inputs.box_threshold inputs) (Inputs.text_threshold inputs))
             (snd (run inputs m))).
Proof.
  intros Hswitch.
  assert (Hu : exists m1 l1,
             update (Inputs.sam_type inputs) m = (Ok tt, m1, l1)
             /\ List.filter is_model_predict l1 = []).
  { destruct (py_ne (Inputs.sam_type inputs) (LangSAM.sam_type m)) eqn:Ene.
    - destruct Hswitch as [|Hl]; [discriminate|].
      rewrite (update_differs _ _ Ene), Hl. cbn. eauto.
    - rewrite (update_same _ _ Ene). eauto. }
  destruct Hu as (m1 & l1 & Hu & Hl1). split.
  - intros e He. unfold predict, bind, print, lift, open_image.
    rewrite Hu, He. cbn. rewrite app_nil_r. now split.
  - intros img Hi.
    assert (Ho : open (Inputs.image_bytes inputs) = Ok img)
      by (unfold open_image; now rewrite Hi).
    split; [exact Ho|].
    destruct (predict_reaches_model _ _ _ _ _ Hu Ho) as (r & l' & ->).
    cbn. right; right. apply in_or_app. right. now left.
Qed.

Lemma decode_request_sam_type request inputs :
  decode_request float_of_str repr_str request = Ok inputs ->
  Inputs.sam_type inputs = form_get request "sam_type" PyNone.
Proof.
  unfold decode_request, rbind.
  destruct (float_field _ _ _ "box_threshold" _); [|discriminate].
  destruct (float_field _ _ _ "text_threshold" _); [|discriminate].
  destruct (is_None _); [discriminate|].
  destruct (file_read _); [|discriminate].
  now intros [= <-].
Qed.

(** C9: a request without [sam_type] is decoded with [None] for it; when
    the model records a string as its variant, [None] differs from it, and
    [predict] calls [build_model] with [None], once. *)
Theorem predict_absent_sam_type (request : gmap string form_value)
    inputs m s :
  request !! "sam_type" = None ->
  decode_request float_of_str repr_str request = Ok inputs ->
  LangSAM.sam_type m = PyStr s ->
  Inputs.sam_type inputs = PyNone
  /\ py_ne (Inputs.sam_type inputs) (LangSAM.sam_type m) = true
  /\ (exists rest,
        snd (run inputs m)
        = [Print OutStarting;
           Print (OutParams PyNone (Inputs.box_threshold inputs)
                    (Inputs.text_threshold inputs) (Inputs.text_prompt inputs));
           Print (OutUpdating PyNone);
           BuildModel PyNone (is_ok (fst (build_model PyNone m)))] ++ rest)
  /\ builds (snd (run inputs m)) = 1%nat.
Proof.
  intros Habs Hdec Hs.
  assert (Hnone : Inputs.sam_type inputs = PyNone).
  { rewrite (decode_request_sam_type _ _ Hdec). unfold form_get.
    now rewrite Habs. }
  assert (Hne : py_ne (Inputs.sam_type inputs) (LangSAM.sam_type m) = true)
    by now rewrite Hnone, Hs.
  repeat split; auto.
  - destruct (predict_effects inputs m) as (r & l' & -> & _).
    rewrite (update_differs _ _ Hne), Hnone. cbn. eauto.
  - unfold builds. rewrite predict_build_events, (update_differs _ _ Hne).
    reflexivity.
Qed.

(** Were the rebuild not to write the variant the model records, a
    request for another variant than the recorded one would rebuild at
    every call: [predict] itself never writes it. *)
Lemma predict_rebuilds_again inputs m :
  (forall v m0,
     LangSAM.sam_type (snd (build_model v m0)) = LangSAM.sam_type m0) ->
  py_ne (Inputs.sam_type inputs) (LangSAM.sam_type m) = true ->
  builds (snd (run inputs m)) = 1%nat
  /\ builds (snd (run inputs (snd (fst (run inputs m))))) = 1%nat.
Proof.
  intros Hkeep Hne.
  assert (Hne' : py_ne (Inputs.sam_type inputs)
                   (LangSAM.sam_type (snd (fst (run inputs m)))) = true).
  { rewrite predict_model, (update_differs _ _ Hne). cbn [fst snd].
    now rewrite Hkeep. }
  unfold builds. rewrite !predict_build_events.
  now rewrite (update_differs _ _ Hne), (update_differs _ _ Hne').
Qed.

End PredictFacts.

(** ** Sequences of calls, with the rebuild of the spec *)

Section RebuildFacts.

Variable pil_open_rgb : list byte -> result Image.
Variable model_predict :
  LangSAM.t -> list Image -> list pyval -> float -> float ->
  result (list (gmap string pyobj)).
Variable load_failure : pyval -> option exn.
Variable half_built : pyval -> LangSAM.t -> LangSAM.t.

Local Abbreviation build := (build_model_spec load_failure half_built).
Local Abbreviation update := (update_sam_type build).
Local Abbreviation run := (predict pil_open_rgb model_predict build).
Local Abbreviation run_all := (serve pil_open_rgb model_predict build).






End RebuildFacts.

(** ** The container of [np.save] read back by [np.load] *)

Lemma append_String x (a b : string) :
  String x a +:+ b = String x (a +:+ b).
Proof. reflexivity. Qed.

Lemma append_assoc (a b c : string) : (a +:+ b) +:+ c = a +:+ (b +:+ c).
Proof.
  induction a as [|x a IH]; [reflexivity|].
  now rewrite !append_String, IH.
Qed.

Lemma length_append (a b : string) :
  String.length (a +:+ b) = (String.length a + String.length b)%nat.
Proof.
  induction a as [|x a IH]; [reflexivity|].
  rewrite append_String. cbn. now rewrite IH.
Qed.

Lemma strip_prefix_append p s : np.strip_prefix p (p +:+ s) = Some s.
Proof.
  induction p as [|x p IH]; [reflexivity|].
  rewrite append_String. cbn. rewrite Ascii.eqb_refl. exact IH.
Qed.

Lemma string_of_list_byte_app a b :
  string_of_list_byte (a ++ b)
  = string_of_list_byte a +:+ string_of_list_byte b.
Proof.
  unfold string_of_list_byte. rewrite map_app.
  induction (map ascii_of_byte a) as [|x l IH]; [reflexivity|].
  cbn. now rewrite append_String, IH.
Qed.

Lemma length_list_byte_of_string s :
  length (list_byte_of_string s) = String.length s.
Proof.
  unfold list_byte_of_string. rewrite length_map.
  induction s as [|x s IH]; cbn; [reflexivity | now rewrite IH].
Qed.

(** *** Decimal digits *)

Lemma is_digit_digit d : (d < 10)%N -> np.is_digit (np.digit d) = true.
Proof.
  intros H. unfold np.is_digit, np.digit.
  rewrite N_ascii_embedding by lia.
  apply andb_true_intro. split; apply N.leb_le; lia.
Qed.

Lemma digit_value_digit d : (d < 10)%N -> np.digit_value (np.digit d) = d.
Proof.
  intros H. unfold np.digit_value, np.digit.
  rewrite N_ascii_embedding by lia. lia.
Qed.

Lemma repr_digits_digits fuel n acc :
  Forall (fun c => np.is_digit c = true) acc ->
  Forall (fun c => np.is_digit c = true) (np.repr_digits fuel n acc).
Proof.
  revert n acc. induction fuel as [|fuel IH]; intros n acc Hacc; cbn; auto.
  assert (Forall (fun c => np.is_digit c = true)
            (np.digit (n mod 10) :: acc)).
  { constructor; auto. apply is_digit_digit. now apply N.mod_lt. }
  destruct (n <? 10)%N; auto.
Qed.

Lemma repr_digits_value fuel n acc :
  (n < 2 ^ N.of_nat fuel)%N ->
  digits_value (np.repr_digits fuel n acc) 0 = digits_value acc n.
Proof.
  revert n acc. induction fuel as [|fuel IH]; intros n acc Hn.
  - cbn in *. now replace n with 0%N by lia.
  - cbn [np.repr_digits]. destruct (n <? 10)%N eqn:E.
    + apply N.ltb_lt in E. cbn.
      rewrite digit_value_digit by now apply N.mod_lt.
      now rewrite N.mod_small by lia.
    + rewrite IH.
      * cbn. rewrite digit_value_digit by now apply N.mod_lt.
        f_equal. symmetry. apply N.div_mod'.
      * rewrite Nat2N.inj_succ, N.pow_succ_r' in Hn.
        apply N.Div0.div_lt_upper_bound; lia.
Qed.

Lemma repr_digits_grows fuel n acc :
  (length acc <= length (np.repr_digits fuel n acc))%nat.
Proof.
  revert n acc. induction fuel as [|fuel IH]; intros n acc; cbn; [lia|].
  destruct (n <? 10)%N; cbn; [lia|].
  specialize (IH (n / 10)%N (np.digit (n mod 10) :: acc)). cbn in IH. lia.
Qed.

Lemma repr_digits_nonempty fuel n acc :
  np.repr_digits (S fuel) n acc <> [].
Proof.
  intros H. apply (f_equal (@length ascii)) in H. revert H. cbn.
  destruct (n <? 10)%N; cbn; [lia|].
  pose proof (repr_digits_grows fuel (n / 10)%N (np.digit (n mod 10) :: acc))
    as G.
  cbn in G. lia.
Qed.

Lemma repr_digits_length fuel n acc :
  (length (np.repr_digits fuel n acc) <= fuel + length acc)%nat.
Proof.
  revert n acc. induction fuel as [|fuel IH]; intros n acc; cbn; [lia|].
  destruct (n <? 10)%N; cbn; [lia|].
  specialize (IH (n / 10)%N (np.digit (n mod 10) :: acc)). cbn in IH. lia.
Qed.

Lemma log2_fuel n : (n < 2 ^ N.of_nat (S (N.to_nat (N.log2 n))))%N.
Proof.
  rewrite Nat2N.inj_succ, N2Nat.id.
  destruct n as [|p]; [cbn; lia|].
  apply N.log2_spec. lia.
Qed.

(** Reading the digits of a number gives the number. *)
Lemma parse_dims_digits ds rest v acc :
  Forall (fun c => np.is_digit c = true) ds ->
  np.parse_dims (string_of_list_ascii ds +:+ rest) (Some v) acc
  = np.parse_dims rest (Some (digits_value ds v)) acc.
Proof.
  revert v. induction ds as [|c ds IH]; intros v Hds; [reflexivity|].
  inversion Hds as [|? ? Hc Hds']; subst.
  cbn [string_of_list_ascii]. rewrite append_String.
  cbn [np.parse_dims]. rewrite Hc. cbn [default digits_value fold_left].
  now rewrite IH.
Qed.

Lemma parse_dims_repr_N n rest acc :
  np.parse_dims (np.repr_N n +:+ rest) None acc
  = np.parse_dims rest (Some n) acc.
Proof.
  unfold np.repr_N.
  pose proof (repr_digits_digits (S (N.to_nat (N.log2 n))) n [] (List.Forall_nil _))
    as Hd.
  pose proof (repr_digits_value (S (N.to_nat (N.log2 n))) n [] (log2_fuel n))
    as Hv.
  pose proof (repr_digits_nonempty (N.to_nat (N.log2 n)) n []) as Hne.
  destruct (np.repr_digits _ n []) as [|c ds]; [contradiction|].
  inversion Hd as [|? ? Hc Hds]; subst.
  cbn [string_of_list_ascii]. rewrite append_String.
  cbn [np.parse_dims]. rewrite Hc.
  rewrite parse_dims_digits by assumption.
  cbn [digits_value fold_left] in Hv. cbn [default]. unfold digits_value.
  now rewrite Hv.
Qed.

Lemma length_repr_N n :
  (String.length (np.repr_N n) <= S (N.to_nat (N.log2 n)))%nat.
Proof.
  unfold np.repr_N.
  pose proof (repr_digits_length (S (N.to_nat (N.log2 n))) n []) as H.
  cbn [length] in H.
  assert (L : forall l, String.length (string_of_list_ascii l) = length l).
  { induction l as [|x l IH]; cbn; [reflexivity | now rewrite IH]. }
  rewrite L. lia.
Qed.

(** *** The shape *)

Lemma parse_dims_items l acc rest :
  l <> [] ->
  acc <> [] \/ (2 <= length l)%nat ->
  np.parse_dims (np.repr_dims l +:+ ")" +:+ rest) None acc
  = Some (rev acc ++ l, rest).
Proof.
  revert acc. induction l as [|n l IH]; intros acc Hl Hacc; [contradiction|].
  destruct l as [|n' l].
  - cbn [np.repr_dims]. rewrite parse_dims_repr_N.
    destruct acc as [|x acc]; [cbn in Hacc; destruct Hacc; [contradiction|lia]|].
    reflexivity.
  - change (np.repr_dims (n :: n' :: l))
      with (np.repr_N n +:+ ", " +:+ np.repr_dims (n' :: l)).
    rewrite !append_assoc, parse_dims_repr_N.
    change (np.parse_dims (", " +:+ np.repr_dims (n' :: l) +:+ ")" +:+ rest)
              (Some n) acc)
      with (np.parse_dims (np.repr_dims (n' :: l) +:+ ")" +:+ rest)
              None (n :: acc)).
    rewrite IH by (try discriminate; now left).
    cbn [rev]. now rewrite <- app_assoc.
Qed.

(** What follows the opening parenthesis of a printed shape reads back as
    the shape. *)
Lemma parse_dims_repr_shape l rest :
  exists body,
    np.repr_shape l +:+ rest = String "(" body
    /\ np.parse_dims body None [] = Some (l, rest).
Proof.
  destruct l as [|n [|n' l]].
  - exists (")" +:+ rest). split; reflexivity.
  - exists (np.repr_N n +:+ ",)" +:+ rest). split.
    + unfold np.repr_shape. now rewrite !append_assoc.
    + rewrite parse_dims_repr_N. reflexivity.
  - exists (np.repr_dims (n :: n' :: l) +:+ ")" +:+ rest). split.
    + unfold np.repr_shape. now rewrite !append_assoc.
    + rewrite parse_dims_items; [reflexivity|discriminate|].
      right. cbn. lia.
Qed.

(** *** The header *)

Lemma is_padding_padding padlen :
  np.is_padding (string_of_list_byte (padding padlen)) = true.
Proof.
  induction padlen as [|k IH]; [reflexivity|].
  change (string_of_list_byte (padding (S k)))
    with (String " " (string_of_list_byte (padding k))).
  cbn [np.is_padding]. rewrite IH.
  destruct (string_of_list_byte (padding k)) eqn:E; [|reflexivity].
  destruct k; discriminate.
Qed.

Lemma parse_descr_descr d s : np.parse_descr (np.descr d +:+ s) = Some (d, s).
Proof. now destruct d. Qed.

Lemma parse_bool_repr b s : np.parse_bool (np.repr_bool b +:+ s) = Some (b, s).
Proof. now destruct b. Qed.

Lemma parse_header_dict a pad :
  np.is_padding pad = true ->
  np.parse_header (np.header_dict a +:+ pad)
  = Some (np.dtype_of a, np.fortran_order a, np.shape a).
Proof.
  intros Hpad. unfold np.header_dict, np.parse_header.
  rewrite !append_assoc, strip_prefix_append. cbn [mbind option_bind].
  rewrite parse_descr_descr. cbn [mbind option_bind].
  rewrite strip_prefix_append. cbn [mbind option_bind].
  rewrite parse_bool_repr. cbn [mbind option_bind].
  destruct (parse_dims_repr_shape (np.shape a) (", }" +:+ pad))
    as (body & Hbody & Hparse).
  rewrite Hbody.
  change (np.strip_prefix ", 'shape': (" (", 'shape': " +:+ String "(" body))
    with (np.strip_prefix ", 'shape': (" (", 'shape': (" +:+ body)).
  rewrite strip_prefix_append. cbn [mbind option_bind].
  rewrite Hparse. cbn [mbind option_bind].
  rewrite strip_prefix_append. cbn [mbind option_bind].
  now rewrite Hpad.
Qed.

(** *** Little-endian lengths *)

Lemma to_N_byte_of_N n : Byte.to_N (np.byte_of_N n) = (n mod 256)%N.
Proof.
  unfold np.byte_of_N.
  destruct (Byte.of_N (n mod 256)) as [b|] eqn:E.
  - now apply Byte.to_of_N.
  - apply Byte.of_N_None_iff in E.
    pose proof (N.mod_lt n 256). lia.
Qed.

Lemma unpack_pack size n :
  (n < 256 ^ N.of_nat size)%N -> np.unpack_le (np.pack_le size n) = n.
Proof.
  revert n. induction size as [|size IH]; intros n Hn.
  - cbn in *. lia.
  - cbn [np.pack_le np.unpack_le]. rewrite to_N_byte_of_N, IH.
    + symmetry. rewrite N.add_comm. apply N.div_mod'.
    + rewrite Nat2N.inj_succ, N.pow_succ_r' in Hn.
      apply N.Div0.div_lt_upper_bound. lia.
Qed.

Lemma length_pack size n : length (np.pack_le size n) = size.
Proof.
  revert n. induction size as [|size IH]; intros n; cbn; [reflexivity|].
  now rewrite IH.
Qed.

Lemma firstn_app_exact {A} n (l k : list A) :
  length l = n -> firstn n (l ++ k) = l.
Proof.
  intros <-. induction l as [|x l IH]; cbn; [now destruct k|].
  now rewrite IH.
Qed.

Lemma skipn_app_exact {A} n (l k : list A) :
  length l = n -> skipn n (l ++ k) = k.
Proof. intros <-. induction l as [|x l IH]; cbn; auto. Qed.

(** *** Writing, then reading *)

Lemma load_wrapped a major size :
  np.length_size major x00 = Some size ->
  length (np.data a) = N.to_nat (np.nbytes a) ->
  forall h, np.wrap_header (np.header_dict a) major size = Some h ->
  np.load (h ++ np.data a) = Ok a.
Proof.
  intros Hsize Hdata h. unfold np.wrap_header.
  set (hlen := (N.of_nat (String.length (np.header_dict a)) + 1)%N).
  set (padlen := (np.ARRAY_ALIGN
                  - (np.MAGIC_LEN + N.of_nat size + hlen) mod np.ARRAY_ALIGN)%N).
  destruct (hlen + padlen <? 256 ^ N.of_nat size)%N eqn:Hfit; [|discriminate].
  apply N.ltb_lt in Hfit. intros [= <-].
  set (header := list_byte_of_string (np.header_dict a)
                   ++ padding (N.to_nat padlen)).
  change (np.load
            ((np.MAGIC_PREFIX ++ [major; x00]
                ++ np.pack_le size (hlen + padlen) ++ header)
               ++ np.data a) = Ok a).
  assert (Hlen : length header = N.to_nat (hlen + padlen)).
  { unfold header, padding.
    rewrite !length_app, length_list_byte_of_string, repeat_length.
    cbn [length]. unfold hlen. lia. }
  unfold np.load.
  cbn [np.MAGIC_PREFIX app]. change (np.bytes_eqb _ _) with true. cbn match.
  rewrite Hsize, <- !app_assoc.
  rewrite (firstn_app_exact size) by apply length_pack.
  rewrite (skipn_app_exact size) by apply length_pack.
  rewrite unpack_pack by exact Hfit.
  rewrite (firstn_app_exact _ header) by exact Hlen.
  rewrite (skipn_app_exact _ header) by exact Hlen.
  rewrite Hlen, Nat.ltb_irrefl.
  unfold header. rewrite string_of_list_byte_app, string_of_list_byte_of_string.
  rewrite parse_header_dict by apply is_padding_padding.
  change (np.nbytes (np.Array (np.dtype_of a) (np.shape a)
                       (np.fortran_order a) []))
    with (np.nbytes a).
  rewrite <- Hdata, Nat.ltb_irrefl, firstn_all.
  now destruct a.
Qed.

(** Reading what [np.save] wrote gives the array back. *)
Lemma load_save a b :
  length (np.data a) = N.to_nat (np.nbytes a) ->
  np.save a = Ok b -> np.load b = Ok a.
Proof.
  intros Hdata. unfold np.save.
  destruct (np.wrap_header _ x01 2) as [h|] eqn:E1.
  { intros [= <-]. now apply (load_wrapped a x01 2%nat). }
  destruct (np.wrap_header _ x02 4) as [h|] eqn:E2; [|discriminate].
  intros [= <-]. now apply (load_wrapped a x02 4%nat).
Qed.

(** C6: for an (N,4) array of well-formed content, [encode_response]
    answers with the container written by [np.save], and reading the body
    back with [np.load] gives the very array: element type, shape, order
    and bytes. *)
Theorem encode_response_round_trip a n :
  np.shape a = [n; 4%N] ->
  np.well_formed a ->
  exists response,
    encode_response {| Output.boxes := a |} = Ok response
    /\ media_type response = "application/octet-stream"
    /\ np.load (content response) = Ok a.
Proof.
  intros Hshape [Hdata Hdims].
  assert (Hn : (N.to_nat (N.log2 n) < 63)%nat).
  { rewrite Hshape in Hdims. inversion Hdims as [|? ? Hlt _]; subst.
    destruct n as [|p]; [cbn; lia|].
    assert (N.log2 (N.pos p) < 63)%N by (apply N.log2_lt_pow2; lia). lia. }
  assert (Hlen : (String.length (np.header_dict a) <= 200)%nat).
  { unfold np.header_dict. rewrite Hshape. unfold np.repr_shape, np.repr_dims.
    rewrite !length_append.
    pose proof (length_repr_N n).
    change (String.length (np.repr_N 4)) with 1%nat.
    assert (String.length (np.descr (np.dtype_of a)) = 3%nat)
      by now destruct (np.dtype_of a).
    assert (String.length (np.repr_bool (np.fortran_order a)) <= 5)%nat
      by (destruct (np.fortran_order a); cbn; lia).
    cbn [String.length] in *. lia. }
  destruct (np.wrap_header (np.header_dict a) x01 2) as [h|] eqn:E.
  - exists {| content := h ++ np.data a;
              media_type := "application/octet-stream" |}.
    unfold encode_response, np.save. cbn [Output.boxes]. rewrite E.
    repeat split. cbn [content].
    now apply (load_wrapped a x01 2%nat).
  - exfalso. revert E. unfold np.wrap_header.
    set (hlen := (N.of_nat (String.length (np.header_dict a)) + 1)%N).
    destruct (_ <? _)%N eqn:F; [discriminate|]. intros _.
    apply N.ltb_ge in F. revert F.
    change (256 ^ N.of_nat 2)%N with 65536%N.
    unfold np.ARRAY_ALIGN. generalize ((np.MAGIC_LEN + N.of_nat 2 + hlen) mod 64)%N.
    intros k. unfold hlen. lia.
Qed.

Lemma encode_response_round_trip_witness :
  exists response,
    encode_response {| Output.boxes := Stub.one_box |} = Ok response
    /\ media_type response = "application/octet-stream"
    /\ np.load (content response) = Ok Stub.one_box.
Proof.
  apply (encode_response_round_trip Stub.one_box 1%N).
  - reflexivity.
  - split; [reflexivity|]. repeat constructor.
Defined.

(** ** The theorems at work in the small environment *)

Lemma predict_normalizes_boxes_witness :
  normalize_boxes (ObjTensor Stub.one_box_tensor) = Ok Stub.one_box
  /\ Stub.predict Stub.inputs_dog Stub.model0
     = (let '(r, m, l) :=
          return_boxes (Stub.detect (PyStr "dog")) Stub.one_box Stub.model0 in
        (r, m, snd (Stub.run_model Stub.inputs_dog Stub.model0) ++ l)).
Proof.
  destruct (predict_normalizes_boxes
              Stub.pil_open_rgb Stub.model_predict Stub.build_model
              Stub.inputs_dog Stub.model0
              (Stub.detect (PyStr "dog")) Stub.model0
              (snd (Stub.run_model Stub.inputs_dog Stub.model0))
              (ObjTensor Stub.one_box_tensor))
    as (_ & _ & _ & _ & W1 & W3 & _); [vm_compute; reflexivity .. | ].
  split; [exact W1 | exact W3].
Defined.

(** C4, as stated, fails twice: an array of three integers is passed
    through as it is, and is no (N,4) float array; and a tensor that
    requires a gradient is not converted: [predict] raises the
    [RuntimeError] of the conversion, which is no [TypeError]. *)
Lemma predict_boxes_not_normalized :
  (fst (fst (predict Stub.pil_open_rgb
               (Stub.model_predict_const
                  (Ok [{[ "boxes" := ObjNdarray Stub.three_ids;
                          "masks" := ObjList [ObjNdarray Stub.one_mask] ]}]))
               Stub.build_model Stub.inputs_dog Stub.model0))
   = Ok {| Output.boxes := Stub.three_ids |}
   /\ np.shape Stub.three_ids = [3%N]
   /\ np.dtype_of Stub.three_ids = Int64)
  /\ (fst (fst (predict Stub.pil_open_rgb
                  (Stub.model_predict_const
                     (Ok [{[ "boxes" := ObjTensor Stub.one_box_grad;
                             "masks" := ObjList [ObjNdarray Stub.one_mask] ]}]))
                  Stub.build_model Stub.inputs_dog Stub.model0))
      = Raise torch.requires_grad_error
      /\ exn_cls torch.requires_grad_error = RuntimeError).
Proof. repeat split; vm_compute; reflexivity. Qed.

(** C5, as stated, fails: a model result without masks whose boxes are a
    plain list makes [predict] raise. *)
Lemma predict_zero_masks_list_boxes_raises :
  let results : gmap string pyobj :=
    {[ "boxes" := ObjList []; "masks" := ObjList [] ]} in
  fst (fst (run_model Stub.pil_open_rgb Stub.model_predict_lists
              Stub.build_model
              Stub.inputs_dog Stub.model0)) = Ok results
  /\ results !! "masks" = Some (ObjList [])
  /\ py_len (ObjList []) = Ok 0%nat
  /\ fst (fst (predict Stub.pil_open_rgb Stub.model_predict_lists
                 Stub.build_model
                 Stub.inputs_dog Stub.model0)) = Raise boxes_type_error.
Proof. repeat split; vm_compute; reflexivity. Qed.

Lemma predict_zero_masks_witness :
  Stub.predict Stub.inputs_empty_prompt Stub.model0
  = (Ok {| Output.boxes := Stub.no_box |}, Stub.model0,
     snd (Stub.run_model Stub.inputs_empty_prompt Stub.model0)
       ++ [Print OutNoMasks]).
Proof.
  apply (predict_zero_masks
           Stub.pil_open_rgb Stub.model_predict Stub.build_model Stub.inputs_empty_prompt Stub.model0
           (Stub.detect (PyStr EmptyString)) Stub.model0
           (snd (Stub.run_model Stub.inputs_empty_prompt Stub.model0))
           (ObjNdarray Stub.no_box) Stub.no_box (ObjList []));
    vm_compute; reflexivity.
Defined.

Lemma predict_masks_irrelevant_witness :
  fst (Stub.predict Stub.inputs_dog Stub.model0)
  = (Ok {| Output.boxes := Stub.one_box |}, Stub.model0).
Proof.
  destruct (predict_masks_irrelevant
              Stub.pil_open_rgb Stub.model_predict Stub.build_model Stub.inputs_dog Stub.model0
              (Stub.detect (PyStr "dog")) Stub.model0
              (snd (Stub.run_model Stub.inputs_dog Stub.model0))
              (ObjTensor Stub.one_box_tensor) Stub.one_box
              (ObjList [ObjNdarray Stub.one_mask]) 1%nat)
    as (W & _); [vm_compute; reflexivity .. | exact W].
Defined.

(** C7, as stated, fails: when the request asks for a variant that cannot
    be built, bytes that are no image do not get as far as the decoder, and
    [predict] raises the rebuild's exception. *)
Lemma predict_failed_switch_before_image :
  Stub.pil_open_rgb (Inputs.image_bytes Stub.inputs_garbage_unknown)
  = Raise (Exn (OtherError "UnidentifiedImageError")
             "cannot identify image file")
  /\ fst (fst (Stub.predict Stub.inputs_garbage_unknown Stub.model0))
     = Raise (Exn KeyError "'sam3'").
Proof. split; vm_compute; reflexivity. Qed.

Lemma predict_invalid_image_witness :
  fst (fst (Stub.predict Stub.inputs_garbage Stub.model0))
  = Raise (Exn ValueError "Invalid image data: cannot identify image file").
Proof.
  destruct (predict_invalid_image
              Stub.pil_open_rgb Stub.model_predict Stub.build_model Stub.inputs_garbage Stub.model0)
    as [W _]; [left; vm_compute; reflexivity|].
  exact (proj1 (W _ eq_refl)).
Defined.

Lemma predict_absent_sam_type_witness :
  builds (snd (Stub.predict Stub.inputs_no_sam_type Stub.model0)) = 1%nat.
Proof.
  apply (predict_absent_sam_type
           Stub.float_of_str Stub.repr_str
           Stub.pil_open_rgb Stub.model_predict Stub.build_model Stub.request_no_sam_type
           Stub.inputs_no_sam_type Stub.model0 "sam2.1_hiera_small");
    vm_compute; reflexivity.
Defined.

(** Five calls: the second and the fourth ask for another variant than
    the call before, the fifth for one that cannot be built. *)
Example serve_two_switches :
  let '(m, l) :=
    Stub.serve [Stub.inputs_dog; Stub.inputs_large; Stub.inputs_large;
                Stub.inputs_dog; Stub.inputs_garbage_unknown] Stub.model0 in
  builds l = 3%nat
  /\ last_build l = Some (PyStr "sam3", false)
  /\ LangSAM.sam_type m = PyStr "sam2.1_hiera_small".
Proof. vm_compute. repeat split. Qed.


(** * Further properties *)

(** ** decode_request: when it returns, what it returns, what it ignores *)

Section DecodeMore.

Variable float_of_str : string -> option float.
Variable repr_str : string -> string.

Local Abbreviation to_float := (py_float float_of_str repr_str).
Local Abbreviation field := (float_field float_of_str repr_str).
Local Abbreviation bad := (malformed float_of_str repr_str).
Local Abbreviation decode := (decode_request float_of_str repr_str).

Lemma float_field_returns (request : gmap string form_value) key default f :
  field request key default = Ok f -> bad request key = false.
Proof.
  unfold float_field, malformed.
  destruct (request !! key) as [v|]; [|reflexivity].
  now intros ->.
Qed.

(** What [decode_request] does once both thresholds are converted. *)
Lemma decode_request_after_thresholds
    (request : gmap string form_value) bt tt :
  field request "box_threshold" 0.3 = Ok bt ->
  field request "text_threshold" 0.25 = Ok tt ->
  decode request
  = match request !! "image" with
    | None => Raise no_image_error
    | Some (FormStr _) =>
        Raise (Exn AttributeError "'str' object has no attribute 'file'")
    | Some (FormFile u) =>
        Ok (Inputs.Make (form_get request "sam_type" PyNone) bt tt
              (upload_file u)
              (form_get request "text_prompt" (PyStr EmptyString)))
    end.
Proof.
  intros Hb Ht. unfold decode_request, rbind. rewrite Hb, Ht.
  unfold form_get.
  destruct (request !! "image") as [[s|u]|]; reflexivity.
Qed.

(** X1: [decode_request] returns exactly for the requests whose image
    field is an uploaded file and whose thresholds are each absent or
    accepted by [float]. *)
Theorem decode_request_returns_iff (request : gmap string form_value) :
  (exists inputs, decode request = Ok inputs)
  <-> (exists u, request !! "image" = Some (FormFile u))
      /\ bad request "box_threshold" = false
      /\ bad request "text_threshold" = false.
Proof.
  split.
  - intros [inputs H].
    destruct (field request "box_threshold" 0.3) as [bt|e] eqn:Hb.
    2:{ unfold decode_request, rbind in H. now rewrite Hb in H. }
    destruct (field request "text_threshold" 0.25) as [tt|e] eqn:Ht.
    2:{ unfold decode_request, rbind in H. now rewrite Hb, Ht in H. }
    rewrite (decode_request_after_thresholds _ _ _ Hb Ht) in H.
    repeat split; eauto using float_field_returns.
    destruct (request !! "image") as [[s|u]|]; try discriminate. eauto.
  - intros ([u Hu] & Eb & Et).
    destruct (float_field_well_formed _ _ _ _ 0.3%float Eb) as [bt Hb].
    destruct (float_field_well_formed _ _ _ _ 0.25%float Et) as [tt Ht].
    rewrite (decode_request_after_thresholds _ _ _ Hb Ht), Hu. eauto.
Qed.

(** X2: what [decode_request] returns carries the fields as the form has
    them: the variant or [None], the prompt or the empty string (never
    [None]), the bytes of the uploaded file, and each threshold as [float]
    gives it: a threshold outside the unit interval is returned as it
    is. *)
Theorem decode_request_fields (request : gmap string form_value) inputs :
  decode request = Ok inputs ->
  Inputs.sam_type inputs = form_get request "sam_type" PyNone
  /\ Inputs.text_prompt inputs
     = form_get request "text_prompt" (PyStr EmptyString)
  /\ Inputs.text_prompt inputs <> PyNone
  /\ (exists u, request !! "image" = Some (FormFile u)
                /\ Inputs.image_bytes inputs = upload_file u)
  /\ (forall s f, request !! "box_threshold" = Some (FormStr s) ->
                  float_of_str s = Some f ->
                  Inputs.box_threshold inputs = f)
  /\ (forall s f, request !! "text_threshold" = Some (FormStr s) ->
                  float_of_str s = Some f ->
                  Inputs.text_threshold inputs = f).
Proof.
  intros H.
  destruct (field request "box_threshold" 0.3) as [bt|e] eqn:Hb.
  2:{ unfold decode_request, rbind in H. now rewrite Hb in H. }
  destruct (field request "text_threshold" 0.25) as [tt|e] eqn:Ht.
  2:{ unfold decode_request, rbind in H. now rewrite Hb, Ht in H. }
  rewrite (decode_request_after_thresholds _ _ _ Hb Ht) in H.
  destruct (request !! "image") as [[s|u]|] eqn:Hi; try discriminate.
  injection H as <-. cbn.
  split; [reflexivity|]. split; [reflexivity|]. split.
  { unfold form_get. now destruct (request !! "text_prompt") as [[]|]. }
  split; [eauto|]. split.
  - intros s f Hs Hf. unfold float_field in Hb. rewrite Hs in Hb. cbn in Hb.
    rewrite Hf in Hb. congruence.
  - intros s f Hs Hf. unfold float_field in Ht. rewrite Hs in Ht. cbn in Ht.
    rewrite Hf in Ht. congruence.
Qed.

(** X3: an image sent as a text field, not as a file, is not the missing
    image: with thresholds that convert, [decode_request] raises the
    [AttributeError] of reading the file of a string. *)
Theorem decode_request_text_image (request : gmap string form_value) s :
  request !! "image" = Some (FormStr s) ->
  bad request "box_threshold" = false ->
  bad request "text_threshold" = false ->
  decode request
  = Raise (Exn AttributeError "'str' object has no attribute 'file'").
Proof.
  intros Hi Eb Et.
  destruct (float_field_well_formed _ _ _ _ 0.3%float Eb) as [bt Hb].
  destruct (float_field_well_formed _ _ _ _ 0.25%float Et) as [tt Ht].
  now rewrite (decode_request_after_thresholds _ _ _ Hb Ht), Hi.
Qed.

(** X4: [decode_request] reads five fields and no other: a further field
    of the form, whatever its value, changes nothing. *)
Theorem decode_request_other_field
    (request : gmap string form_value) key v :
  ~ List.In key ["sam_type"; "box_threshold"; "text_threshold";
                 "text_prompt"; "image"] ->
  decode (<[key := v]> request) = decode request.
Proof.
  intros Hkey. cbn in Hkey.
  unfold decode_request, float_field, form_get.
  rewrite !lookup_insert_ne by intuition. reflexivity.
Qed.

(** X5: a threshold sent as a file makes [decode_request] raise the
    [TypeError] of [float], whatever the other fields. *)
Theorem decode_request_file_threshold
    (request : gmap string form_value) u :
  request !! "box_threshold" = Some (FormFile u) ->
  decode request
  = Raise (Exn TypeError
             "float() argument must be a string or a real number, not 'UploadFile'").
Proof.
  intros H. unfold decode_request, rbind, float_field. now rewrite H.
Qed.

End DecodeMore.

Lemma decode_request_fields_witness :
  Inputs.box_threshold Stub.inputs_dog = 0.3%float
  /\ exists inputs,
       decode_request Stub.float_of_str Stub.repr_str
         Stub.request_wide_thresholds = Ok inputs
       /\ Inputs.box_threshold inputs = 17%float
       /\ Inputs.text_threshold inputs = 2.5%float.
Proof.
  split; [reflexivity|].
  exists (Inputs.Make PyNone 17 2.5 (upload_file Stub.png) (PyStr EmptyString)).
  destruct (decode_request_fields
              Stub.float_of_str Stub.repr_str Stub.request_wide_thresholds
              (Inputs.Make PyNone 17 2.5 (upload_file Stub.png)
                 (PyStr EmptyString)))
    as (_ & _ & _ & _ & Hb & Ht); [vm_compute; reflexivity|].
  split; [vm_compute; reflexivity|]. split.
  - apply (Hb "17"); vm_compute; reflexivity.
  - apply (Ht "2.5"); vm_compute; reflexivity.
Defined.

Lemma decode_request_text_image_witness :
  decode_request Stub.float_of_str Stub.repr_str Stub.request_text_image
  = Raise (Exn AttributeError "'str' object has no attribute 'file'").
Proof.
  apply (decode_request_text_image
           Stub.float_of_str Stub.repr_str Stub.request_text_image "dog.png");
    vm_compute; reflexivity.
Defined.

Lemma decode_request_other_field_witness :
  decode_request Stub.float_of_str Stub.repr_str
    (<["return_masks" := FormStr "yes"]> Stub.request_dog)
  = decode_request Stub.float_of_str Stub.repr_str Stub.request_dog.
Proof.
  apply (decode_request_other_field
           Stub.float_of_str Stub.repr_str Stub.request_dog
           "return_masks" (FormStr "yes")).
  cbn. intuition discriminate.
Defined.

Lemma decode_request_file_threshold_witness :
  decode_request Stub.float_of_str Stub.repr_str Stub.request_file_threshold
  = Raise (Exn TypeError
             "float() argument must be a string or a real number, not 'UploadFile'").
Proof.
  apply (decode_request_file_threshold
           Stub.float_of_str Stub.repr_str Stub.request_file_threshold
           Stub.garbage).
  vm_compute; reflexivity.
Defined.

(** ** predict: the model it leaves, the calls it makes, the exceptions
    it lets through *)

Section PredictMore.

Variable pil_open_rgb : list byte -> result Image.
Variable model_predict :
  LangSAM.t -> list Image -> list pyval -> float -> float ->
  result (list (gmap string pyobj)).
Variable build_model : pyval -> LangSAM.t -> result unit * LangSAM.t.

Local Abbreviation update := (update_sam_type build_model).
Local Abbreviation run_to_results :=
  (run_model pil_open_rgb model_predict build_model).
Local Abbreviation run :=
  (predict pil_open_rgb model_predict build_model).
Local Abbreviation run_all :=
  (serve pil_open_rgb model_predict build_model).

(** The two lines every call prints first. *)
Local Abbreviation start_lines inputs :=
  [Print OutStarting;
   Print (OutParams (Inputs.sam_type inputs) (Inputs.box_threshold inputs)
            (Inputs.text_threshold inputs) (Inputs.text_prompt inputs))].

(** The call of the model a request makes. *)
Local Abbreviation model_call inputs image_pil :=
  (ModelPredict [image_pil] [Inputs.text_prompt inputs]
     (Inputs.box_threshold inputs) (Inputs.text_threshold inputs)).

(** X6: a request for the variant the model records leaves the model
    untouched and rebuilds nothing, whether [predict] returns or
    raises. *)
Theorem predict_same_variant inputs m :
  py_ne (Inputs.sam_type inputs) (LangSAM.sam_type m) = false ->
  snd (fst (run inputs m)) = m
  /\ builds (snd (run inputs m)) = 0%nat.
Proof.
  intros Hne. unfold builds.
  rewrite predict_model, predict_build_events, (update_same _ _ _ Hne).
  now split.
Qed.

(** X7: when the rebuild raises, [predict] raises the same exception,
    unwrapped, right after the rebuild: the image is not decoded, the
    model is not called, and the model object is left as the failed
    rebuild left it. *)
Theorem predict_failed_rebuild inputs m e m' :
  py_ne (Inputs.sam_type inputs) (LangSAM.sam_type m) = true ->
  build_model (Inputs.sam_type inputs) m = (Raise e, m') ->
  run inputs m
  = (Raise e, m',
     start_lines inputs
       ++ [Print (OutUpdating (Inputs.sam_type inputs));
           BuildModel (Inputs.sam_type inputs) false]).
Proof.
  intros Hne Hb. unfold predict, bind, print.
  rewrite (update_differs _ _ _ Hne), Hb. reflexivity.
Qed.

(** How a call goes on after the switch of variant and the decoding. *)
Lemma predict_after_image inputs m m1 l1 image_pil :
  update (Inputs.sam_type inputs) m = (Ok tt, m1, l1) ->
  pil_open_rgb (Inputs.image_bytes inputs) = Ok image_pil ->
  run inputs m
  = (let '(r, m2, l2) :=
       match model_predict m1 [image_pil] [Inputs.text_prompt inputs]
               (Inputs.box_threshold inputs) (Inputs.text_threshold inputs)
       with
       | Ok results =>
           match list_first results with
           | Ok results0 => finish results0 m1
           | Raise e => (Raise e, m1, [])
           end
       | Raise e => (Raise e, m1, [])
       end in
     (r, m2, start_lines inputs ++ l1 ++ model_call inputs image_pil :: l2)).
Proof.
  intros Hu Ho. unfold predict, finish, bind, print, lift, call_model_predict,
    open_image.
  rewrite Hu, Ho.
  destruct (model_predict _ _ _ _ _) as [rs|e]; [|reflexivity].
  destruct (list_first rs) as [r|e]; [|reflexivity].
  destruct (dict_getitem r "boxes") as [b|e]; [|reflexivity].
  destruct (normalize_boxes b) as [a|e]; [|reflexivity].
  now destruct (return_boxes r a m1) as [[r' m''] l'].
Qed.

Lemma update_returns v m m1 l1 :
  update v m = (Ok tt, m1, l1) ->
  List.filter is_model_predict l1 = [] /\ (length (List.filter is_build l1) <= 1)%nat.
Proof.
  destruct (py_ne v (LangSAM.sam_type m)) eqn:Hne.
  - rewrite (update_differs _ _ _ Hne). intros [= _ _ <-]. cbn. split; [reflexivity|lia].
  - rewrite (update_same _ _ _ Hne). intros [= _ <-]. cbn. split; [reflexivity|lia].
Qed.

Lemma finish_quiet results m :
  List.filter is_model_predict (snd (finish results m)) = [].
Proof.
  unfold finish, return_boxes, bind, lift, print.
  destruct (dict_getitem results "boxes") as [b|e]; [|reflexivity].
  destruct (normalize_boxes b) as [a|e]; [|reflexivity].
  destruct (dict_getitem results "masks") as [masks|e]; [|reflexivity].
  destruct (py_len masks) as [n|e]; [|reflexivity].
  now destruct (Nat.eqb n 0).
Qed.

(** X8: a call of [predict] rebuilds at most once and calls the model at
    most once; when it calls the model, it is with a batch of one: the
    decoded image, the prompt and the two thresholds of the request. *)
Theorem predict_calls_once inputs m :
  (builds (snd (run inputs m)) <= 1)%nat
  /\ (List.filter is_model_predict (snd (run inputs m)) = []
      \/ exists image_pil,
           pil_open_rgb (Inputs.image_bytes inputs) = Ok image_pil
           /\ List.filter is_model_predict (snd (run inputs m))
              = [model_call inputs image_pil]).
Proof.
  split.
  - unfold builds. rewrite predict_build_events.
    destruct (py_ne (Inputs.sam_type inputs) (LangSAM.sam_type m)) eqn:Hne.
    + rewrite (update_differs _ _ _ Hne). cbn. lia.
    + rewrite (update_same _ _ _ Hne). cbn. lia.
  - destruct (update (Inputs.sam_type inputs) m) as [[[[]|e] m1] l1] eqn:Hu.
    2:{ left. unfold predict, bind, print. rewrite Hu. cbn.
        destruct (py_ne (Inputs.sam_type inputs) (LangSAM.sam_type m)) eqn:Hne.
        - rewrite (update_differs _ _ _ Hne) in Hu.
          injection Hu as _ _ <-. reflexivity.
        - rewrite (update_same _ _ _ Hne) in Hu. discriminate. }
    destruct (update_returns _ _ _ _ Hu) as [Hq _].
    destruct (pil_open_rgb (Inputs.image_bytes inputs)) as [img|e] eqn:Ho.
    2:{ left. unfold predict, bind, print, lift, open_image.
        rewrite Hu, Ho. cbn. now rewrite app_nil_r. }
    right. exists img. split; [reflexivity|].
    rewrite (predict_after_image _ _ _ _ _ Hu Ho).
    assert (Hl2 : forall r m2 l2,
              List.filter is_model_predict l2 = [] ->
              List.filter is_model_predict
                (snd (r : result Output.t, m2 : LangSAM.t,
                      start_lines inputs ++ l1 ++ model_call inputs img :: l2))
              = [model_call inputs img]).
    { intros r m2 l2 H2. cbn. now rewrite List.filter_app, Hq; cbn; rewrite H2. }
    destruct (model_predict _ _ _ _ _) as [rs|e]; [|now apply Hl2].
    destruct (list_first rs) as [r|e]; [|now apply Hl2].
    pose proof (finish_quiet r m1) as Hf.
    destruct (finish r m1) as [[r' m2] l2]. now apply Hl2.
Qed.

(** X9: an exception of the model's [predict] goes through unwrapped,
    unlike the decoder's, and the model object stays as the switch of
    variant left it. *)
Theorem predict_model_raises inputs m m1 l1 image_pil e :
  update (Inputs.sam_type inputs) m = (Ok tt, m1, l1) ->
  pil_open_rgb (Inputs.image_bytes inputs) = Ok image_pil ->
  model_predict m1 [image_pil] [Inputs.text_prompt inputs]
    (Inputs.box_threshold inputs) (Inputs.text_threshold inputs) = Raise e ->
  run inputs m
  = (Raise e, m1,
     start_lines inputs ++ l1 ++ [model_call inputs image_pil]).
Proof.
  intros Hu Ho Hm. now rewrite (predict_after_image _ _ _ _ _ Hu Ho), Hm.
Qed.

(** X10: when the model answers with an empty list, taking the first
    result raises an [IndexError]. *)
Theorem predict_empty_results inputs m m1 l1 image_pil :
  update (Inputs.sam_type inputs) m = (Ok tt, m1, l1) ->
  pil_open_rgb (Inputs.image_bytes inputs) = Ok image_pil ->
  model_predict m1 [image_pil] [Inputs.text_prompt inputs]
    (Inputs.box_threshold inputs) (Inputs.text_threshold inputs) = Ok [] ->
  fst (fst (run inputs m)) = Raise (Exn IndexError "list index out of range").
Proof.
  intros Hu Ho Hm. now rewrite (predict_after_image _ _ _ _ _ Hu Ho), Hm.
Qed.

(** X11: a result without the key [boxes] makes [predict] raise the
    [KeyError] of that key, whatever its masks. *)
Theorem predict_missing_boxes inputs m results m' l :
  run_model pil_open_rgb model_predict build_model inputs m
  = (Ok results, m', l) ->
  results !! "boxes" = None ->
  predict pil_open_rgb model_predict build_model inputs m
  = (Raise (Exn KeyError "'boxes'"), m', l).
Proof.
  intros Hr Hb.
  assert (Hf : finish results m' = (Raise (Exn KeyError "'boxes'"), m', [])).
  { unfold finish, bind, lift, dict_getitem. now rewrite Hb. }
  rewrite (predict_after_results _ _ _ _ _ _ _ _ _ _ _ Hr Hf).
  now rewrite app_nil_r.
Qed.

(** X12: the masks are not returned, yet they are needed: with boxes
    that are an array or a tensor that [.cpu().numpy()] converts, a result
    without the key [masks] makes [predict]
    raise the [KeyError] of that key, and masks without a length (such
    as [None]) make it raise the [TypeError] of [len]. *)
Theorem predict_needs_masks inputs m results m' l b a :
  run_to_results inputs m = (Ok results, m', l) ->
  results !! "boxes" = Some b ->
  normalize_boxes b = Ok a ->
  (results !! "masks" = None ->
   run inputs m = (Raise (Exn KeyError "'masks'"), m', l))
  /\ (forall masks e,
        results !! "masks" = Some masks ->
        py_len masks = Raise e ->
        run inputs m = (Raise e, m', l)).
Proof.
  intros Hr Hb Ha. split.
  - intros Hm.
    assert (Hf : finish results m' = (Raise (Exn KeyError "'masks'"), m', [])).
    { unfold finish, return_boxes, bind, lift, dict_getitem.
      now rewrite Hb, Ha, Hm. }
    rewrite (predict_after_results _ _ _ _ _ _ _ _ _ _ _ Hr Hf).
    now rewrite app_nil_r.
  - intros masks e Hm He.
    assert (Hf : finish results m' = (Raise e, m', [])).
    { unfold finish, return_boxes, bind, lift, dict_getitem.
      now rewrite Hb, Ha, Hm, He. }
    rewrite (predict_after_results _ _ _ _ _ _ _ _ _ _ _ Hr Hf).
    now rewrite app_nil_r.
Qed.

(** X14: [predict] returns exactly when the switch of variant does not
    raise, the image decodes, the model answers with a list whose first
    result has boxes that are an array, or a tensor that [.cpu().numpy()]
    converts to one, and masks that have a length; what it returns is then
    the dictionary of the normalized boxes. A tensor that the conversion
    refuses makes [predict] raise. *)
Theorem predict_returns_iff inputs m output :
  fst (fst (run inputs m)) = Ok output
  <-> exists m1 l1 image_pil (r : gmap string pyobj) rest b a masks n,
        update (Inputs.sam_type inputs) m = (Ok tt, m1, l1)
        /\ pil_open_rgb (Inputs.image_bytes inputs) = Ok image_pil
        /\ model_predict m1 [image_pil] [Inputs.text_prompt inputs]
             (Inputs.box_threshold inputs) (Inputs.text_threshold inputs)
           = Ok (r :: rest)
        /\ r !! "boxes" = Some b
        /\ normalize_boxes b = Ok a
        /\ r !! "masks" = Some masks
        /\ py_len masks = Ok n
        /\ output = {| Output.boxes := a |}.
Proof.
  split.
  - destruct (update (Inputs.sam_type inputs) m) as [[[[]|e] m1] l1] eqn:Hu.
    2:{ unfold predict, bind, print. now rewrite Hu. }
    destruct (pil_open_rgb (Inputs.image_bytes inputs)) as [img|e] eqn:Ho.
    2:{ unfold predict, bind, print, lift, open_image. now rewrite Hu, Ho. }
    rewrite (predict_after_image _ _ _ _ _ Hu Ho).
    destruct (model_predict _ _ _ _ _) as [[|r rest]|e] eqn:Hm;
      try discriminate.
    cbn [list_first]. unfold finish, return_boxes, bind, lift, dict_getitem.
    destruct (r !! "boxes") as [b|] eqn:Hb; [|discriminate].
    destruct (normalize_boxes b) as [a|] eqn:Ha; [|discriminate].
    destruct (r !! "masks") as [masks|] eqn:Hk; [|discriminate].
    destruct (py_len masks) as [n|] eqn:Hn; [|discriminate].
    intros H. exists m1, l1, img, r, rest, b, a, masks, n.
    repeat split; auto.
    revert H. destruct (Nat.eqb n 0); cbn; congruence.
  - intros (m1 & l1 & img & r & rest & b & a & masks & n
            & Hu & Ho & Hm & Hb & Ha & Hk & Hn & ->).
    rewrite (predict_after_image _ _ _ _ _ Hu Ho), Hm. cbn [list_first].
    now rewrite (finish_sized _ _ _ _ _ m1 Hb Ha Hk Hn).
Qed.

(** X15: right after [setup], a request rebuilds the model when, and only
    when, it asks for something else than the default variant: a request
    that names the default variant rebuilds nothing and leaves the model as
    [setup] made it. *)
Theorem setup_first_request inputs :
  builds (snd (run inputs (fst setup)))
  = (if py_ne (Inputs.sam_type inputs) (PyStr "sam2.1_hiera_small")
     then 1%nat else 0%nat)
  /\ (Inputs.sam_type inputs = PyStr "sam2.1_hiera_small" ->
      snd (fst (run inputs (fst setup))) = fst setup).
Proof.
  split.
  - unfold builds. rewrite predict_build_events.
    destruct (py_ne (Inputs.sam_type inputs) (PyStr "sam2.1_hiera_small"))
      eqn:Hne.
    + now rewrite (update_differs _ _ (fst setup) Hne).
    + now rewrite (update_same _ _ (fst setup) Hne).
  - intros Hs. rewrite predict_model, update_same; [reflexivity|].
    now rewrite Hs.
Qed.

(** X16: a sequence of requests that all ask for the variant the model
    records never rebuilds and leaves the model untouched, however the
    single calls end. *)
Theorem serve_same_variant calls m0 :
  Forall (fun inputs =>
            py_ne (Inputs.sam_type inputs) (LangSAM.sam_type m0) = false)
    calls ->
  fst (run_all calls m0) = m0
  /\ builds (snd (run_all calls m0)) = 0%nat.
Proof.
  induction calls as [|i calls IH]; intros Hall; [now split|].
  inversion Hall as [|? ? Hi Hrest]; subst.
  cbn [serve].
  pose proof (predict_model pil_open_rgb model_predict build_model i m0) as Hm.
  pose proof (predict_build_events pil_open_rgb model_predict build_model
                i m0) as Hb.
  rewrite (update_same _ _ _ Hi) in Hm, Hb.
  destruct (run i m0) as [[r m1] l1]. cbn [fst snd] in Hm, Hb. subst m1.
  destruct (IH Hrest) as [IH1 IH2].
  destruct (run_all calls m0) as [m2 l2]. cbn [fst snd] in *.
  split; [exact IH1|].
  rewrite builds_app, IH2. unfold builds. now rewrite Hb.
Qed.

End PredictMore.

(** X13: of what the model answers, [predict] reads the boxes and the
    masks of the first result only: the other results of the list and the
    other keys of the result (labels, scores) do not bear on what it
    returns, raises or prints. *)
Theorem predict_reads_boxes_and_masks
    (pil_open_rgb : list byte -> result Image)
    (model_predict model_predict' :
       LangSAM.t -> list Image -> list pyval -> float -> float ->
       result (list (gmap string pyobj)))
    (build_model : pyval -> LangSAM.t -> result unit * LangSAM.t)
    inputs m m1 l1 image_pil (r r' : gmap string pyobj) rest rest' :
  update_sam_type build_model (Inputs.sam_type inputs) m = (Ok tt, m1, l1) ->
  pil_open_rgb (Inputs.image_bytes inputs) = Ok image_pil ->
  model_predict m1 [image_pil] [Inputs.text_prompt inputs]
    (Inputs.box_threshold inputs) (Inputs.text_threshold inputs)
  = Ok (r :: rest) ->
  model_predict' m1 [image_pil] [Inputs.text_prompt inputs]
    (Inputs.box_threshold inputs) (Inputs.text_threshold inputs)
  = Ok (r' :: rest') ->
  r !! "boxes" = r' !! "boxes" ->
  r !! "masks" = r' !! "masks" ->
  predict pil_open_rgb model_predict build_model inputs m
  = predict pil_open_rgb model_predict' build_model inputs m.
Proof.
  intros Hu Ho Hm Hm' Hb Hk.
  rewrite (predict_after_image pil_open_rgb model_predict build_model
             _ _ _ _ _ Hu Ho), Hm.
  rewrite (predict_after_image pil_open_rgb model_predict' build_model
             _ _ _ _ _ Hu Ho), Hm'.
  cbn [list_first].
  assert (Hf : finish r m1 = finish r' m1).
  { unfold finish, return_boxes, bind, lift, dict_getitem.
    now rewrite Hb, Hk. }
  now rewrite Hf.
Qed.

(** ** encode_response: arrays of any shape, and the layout of the body *)

Lemma length_repr_dims l :
  Forall (fun n => (n < 2 ^ 63)%N) l ->
  (String.length (np.repr_dims l) <= 66 * length l)%nat.
Proof.
  induction l as [|n l IH]; intros Hl; [cbn; lia|].
  inversion Hl as [|? ? Hn Hl']; subst. specialize (IH Hl').
  assert (Hlen : (String.length (np.repr_N n) <= 64)%nat).
  { pose proof (length_repr_N n) as H.
    destruct n as [|p]; [cbn in *; lia|].
    assert (N.log2 (N.pos p) < 63)%N by (apply N.log2_lt_pow2; lia). lia. }
  destruct l as [|n' l]; [cbn [np.repr_dims length]; lia|].
  change (np.repr_dims (n :: n' :: l))
    with (np.repr_N n +:+ ", " +:+ np.repr_dims (n' :: l)).
  rewrite !length_append. cbn [String.length length] in *. lia.
Qed.

Lemma length_header_dict a :
  Forall (fun n => (n < 2 ^ 63)%N) (np.shape a) ->
  (String.length (np.header_dict a) <= 60 + 66 * length (np.shape a))%nat.
Proof.
  intros Hdims. unfold np.header_dict. rewrite !length_append.
  assert (String.length (np.descr (np.dtype_of a)) = 3%nat)
    by now destruct (np.dtype_of a).
  assert (String.length (np.repr_bool (np.fortran_order a)) <= 5)%nat
    by (destruct (np.fortran_order a); cbn; lia).
  assert (String.length (np.repr_shape (np.shape a))
          <= 3 + 66 * length (np.shape a))%nat.
  { pose proof (length_repr_dims _ Hdims) as Hd. unfold np.repr_shape.
    destruct (np.shape a) as [|n [|n' l]];
      rewrite ?length_append; cbn [String.length np.repr_dims length] in *;
      lia. }
  cbn [String.length]. lia.
Qed.

(** A header of at most 32 dimensions fits format version 1.0. *)
Lemma wrap_header_fits a :
  Forall (fun n => (n < 2 ^ 63)%N) (np.shape a) ->
  (length (np.shape a) <= 32)%nat ->
  exists h, np.wrap_header (np.header_dict a) x01 2 = Some h.
Proof.
  intros Hdims Hn. pose proof (length_header_dict a Hdims) as Hlen.
  unfold np.wrap_header.
  set (hlen := (N.of_nat (String.length (np.header_dict a)) + 1)%N).
  destruct (_ <? _)%N eqn:F; [eauto|]. exfalso.
  apply N.ltb_ge in F. revert F.
  change (256 ^ N.of_nat 2)%N with 65536%N.
  unfold np.ARRAY_ALIGN.
  generalize ((np.MAGIC_LEN + N.of_nat 2 + hlen) mod 64)%N.
  intros k. unfold hlen. lia.
Qed.

(** X17: the round trip holds for every well-formed array of at most 32
    dimensions, whatever its shape, element type and memory order:
    [encode_response] returns, and [np.load] of the body is the array.
    So the arrays that [predict] passes through as the model gave them,
    (N,4) or not, reach the client as they are. *)
Theorem encode_response_any_shape a :
  np.well_formed a ->
  (length (np.shape a) <= 32)%nat ->
  exists response,
    encode_response {| Output.boxes := a |} = Ok response
    /\ media_type response = "application/octet-stream"
    /\ np.load (content response) = Ok a.
Proof.
  intros [Hdata Hdims] Hn.
  destruct (wrap_header_fits a Hdims Hn) as [h E].
  exists {| content := h ++ np.data a;
            media_type := "application/octet-stream" |}.
  unfold encode_response, np.save. cbn [Output.boxes]. rewrite E.
  repeat split. cbn [content]. now apply (load_wrapped a x01 2%nat).
Qed.

Lemma wrap_header_layout header major size h :
  np.wrap_header header major size = Some h ->
  (length h mod 64 = 0)%nat
  /\ firstn 6 h = np.MAGIC_PREFIX
  /\ nth_error h 6 = Some major.
Proof.
  unfold np.wrap_header.
  set (hlen := (N.of_nat (String.length header) + 1)%N).
  set (x := (np.MAGIC_LEN + N.of_nat size + hlen)%N).
  destruct (_ <? _)%N; [|discriminate]. intros [= <-].
  split; [|split; reflexivity].
  cbn [length].
  rewrite !length_app, length_pack, length_list_byte_of_string, repeat_length.
  cbn [length].
  assert (Hx : (x + (np.ARRAY_ALIGN - x mod np.ARRAY_ALIGN)
                = 64 * (x / 64 + 1))%N).
  { unfold np.ARRAY_ALIGN. pose proof (N.div_mod' x 64).
    pose proof (N.mod_lt x 64). lia. }
  match goal with
  | |- (?n mod 64 = 0)%nat =>
      replace n with (N.to_nat (x / 64 + 1) * 64)%nat
  end.
  - apply Nat.Div0.mod_mul.
  - rewrite Nat.mul_comm. change 64%nat with (N.to_nat 64).
    rewrite <- N2Nat.inj_mul, <- Hx. unfold x, hlen, np.MAGIC_LEN. lia.
Qed.

(** X18: the body [encode_response] answers with is a header followed by
    the array's bytes as they are; the header starts with the magic
    string, and its length is a multiple of 64, so the data begin on an
    aligned offset. *)
Theorem encode_response_layout a response :
  encode_response {| Output.boxes := a |} = Ok response ->
  media_type response = "application/octet-stream"
  /\ exists header,
       content response = header ++ np.data a
       /\ firstn 6 header = np.MAGIC_PREFIX
       /\ (length header mod 64 = 0)%nat.
Proof.
  unfold encode_response, np.save. cbn [Output.boxes].
  destruct (np.wrap_header _ x01 2) as [h|] eqn:E1.
  { intros [= <-]. split; [reflexivity|]. exists h.
    destruct (wrap_header_layout _ _ _ _ E1) as (? & ? & _). auto. }
  destruct (np.wrap_header _ x02 4) as [h|] eqn:E2; [|discriminate].
  intros [= <-]. split; [reflexivity|]. exists h.
  destruct (wrap_header_layout _ _ _ _ E2) as (? & ? & _). auto.
Qed.

(** X19: from the model's answer to what the client reads: when the first
    result has boxes that are an array, or a tensor that [.cpu().numpy()]
    converts to one, the array being well formed and of at most 32
    dimensions, and masks that have a length, [predict] returns,
    [encode_response] of what it returns returns too, and [np.load] of the
    body is the array of the model's boxes. *)
Theorem predict_then_encode
    (pil_open_rgb : list byte -> result Image)
    (model_predict :
       LangSAM.t -> list Image -> list pyval -> float -> float ->
       result (list (gmap string pyobj)))
    (build_model : pyval -> LangSAM.t -> result unit * LangSAM.t)
    inputs m (results : gmap string pyobj) m' l b a masks n :
  run_model pil_open_rgb model_predict build_model inputs m
  = (Ok results, m', l) ->
  results !! "boxes" = Some b ->
  normalize_boxes b = Ok a ->
  results !! "masks" = Some masks ->
  py_len masks = Ok n ->
  np.well_formed a ->
  (length (np.shape a) <= 32)%nat ->
  exists output response,
    fst (fst (predict pil_open_rgb model_predict build_model inputs m))
    = Ok output
    /\ encode_response output = Ok response
    /\ np.load (content response) = Ok a.
Proof.
  intros Hr Hb Ha Hk Hn [Hdata Hdims] Hshape.
  destruct (wrap_header_fits a Hdims Hshape) as [h E].
  exists {| Output.boxes := a |},
         {| content := h ++ np.data a;
            media_type := "application/octet-stream" |}.
  split; [|split].
  - now rewrite (predict_after_results _ _ _ _ _ _ _ _ _ _ _ Hr
                   (finish_sized _ _ _ _ _ m' Hb Ha Hk Hn)).
  - unfold encode_response, np.save. cbn [Output.boxes]. now rewrite E.
  - cbn [content]. now apply (load_wrapped a x01 2%nat).
Qed.

(** ** The further properties in the small environment *)

Lemma predict_same_variant_witness :
  snd (fst (Stub.predict Stub.inputs_garbage Stub.model0)) = Stub.model0
  /\ builds (snd (Stub.predict Stub.inputs_garbage Stub.model0)) = 0%nat.
Proof.
  apply (predict_same_variant
           Stub.pil_open_rgb Stub.model_predict Stub.build_model
           Stub.inputs_garbage Stub.model0).
  vm_compute; reflexivity.
Defined.

Lemma predict_failed_rebuild_witness :
  Stub.predict Stub.inputs_garbage_unknown Stub.model0
  = (Raise (Exn KeyError "'sam3'"), Stub.model0,
     [Print OutStarting;
      Print (OutParams (PyStr "sam3") 0.3 0.25 (PyStr "dog"));
      Print (OutUpdating (PyStr "sam3"));
      BuildModel (PyStr "sam3") false]).
Proof.
  apply (predict_failed_rebuild
           Stub.pil_open_rgb Stub.model_predict Stub.build_model
           Stub.inputs_garbage_unknown Stub.model0
           (Exn KeyError "'sam3'") Stub.model0);
    vm_compute; reflexivity.
Defined.

Lemma predict_model_raises_witness :
  predict Stub.pil_open_rgb
    (Stub.model_predict_const
       (Raise (Exn (OtherError "RuntimeError") "out of memory")))
    Stub.build_model Stub.inputs_dog Stub.model0
  = (Raise (Exn (OtherError "RuntimeError") "out of memory"), Stub.model0,
     [Print OutStarting;
      Print (OutParams (PyStr "sam2.1_hiera_small") 0.3 0.25 (PyStr "dog"));
      ModelPredict
        [{| width := 1; height := 1; pixels := [x00; x00; x00] |}]
        [PyStr "dog"] 0.3 0.25]).
Proof.
  apply (predict_model_raises
           Stub.pil_open_rgb
           (Stub.model_predict_const
              (Raise (Exn (OtherError "RuntimeError") "out of memory")))
           Stub.build_model Stub.inputs_dog Stub.model0 Stub.model0 []
           {| width := 1; height := 1; pixels := [x00; x00; x00] |});
    vm_compute; reflexivity.
Defined.

Lemma predict_empty_results_witness :
  fst (fst (predict Stub.pil_open_rgb (Stub.model_predict_const (Ok []))
              Stub.build_model Stub.inputs_dog Stub.model0))
  = Raise (Exn IndexError "list index out of range").
Proof.
  apply (predict_empty_results
           Stub.pil_open_rgb (Stub.model_predict_const (Ok []))
           Stub.build_model Stub.inputs_dog Stub.model0 Stub.model0 []
           {| width := 1; height := 1; pixels := [x00; x00; x00] |});
    vm_compute; reflexivity.
Defined.

Lemma predict_missing_boxes_witness :
  fst (fst (predict Stub.pil_open_rgb
              (Stub.model_predict_const (Ok [{[ "masks" := ObjList [] ]}]))
              Stub.build_model Stub.inputs_dog Stub.model0))
  = Raise (Exn KeyError "'boxes'").
Proof.
  rewrite (predict_missing_boxes
             Stub.pil_open_rgb
             (Stub.model_predict_const (Ok [{[ "masks" := ObjList [] ]}]))
             Stub.build_model Stub.inputs_dog Stub.model0
             {[ "masks" := ObjList [] ]} Stub.model0
             (snd (run_model Stub.pil_open_rgb
                     (Stub.model_predict_const
                        (Ok [{[ "masks" := ObjList [] ]}]))
                     Stub.build_model Stub.inputs_dog Stub.model0)));
    [reflexivity | vm_compute; reflexivity ..].
Defined.

Lemma predict_needs_masks_witness :
  fst (fst (predict Stub.pil_open_rgb
              (Stub.model_predict_const
                 (Ok [{[ "boxes" := ObjNdarray Stub.no_box;
                         "masks" := ObjNone ]}]))
              Stub.build_model Stub.inputs_dog Stub.model0))
  = Raise (Exn TypeError "object of type 'NoneType' has no len()").
Proof.
  destruct (predict_needs_masks
              Stub.pil_open_rgb
              (Stub.model_predict_const
                 (Ok [{[ "boxes" := ObjNdarray Stub.no_box;
                         "masks" := ObjNone ]}]))
              Stub.build_model Stub.inputs_dog Stub.model0
              {[ "boxes" := ObjNdarray Stub.no_box; "masks" := ObjNone ]}
              Stub.model0
              (snd (run_model Stub.pil_open_rgb
                      (Stub.model_predict_const
                         (Ok [{[ "boxes" := ObjNdarray Stub.no_box;
                                 "masks" := ObjNone ]}]))
                      Stub.build_model Stub.inputs_dog Stub.model0))
              (ObjNdarray Stub.no_box) Stub.no_box)
    as [_ W]; [vm_compute; reflexivity ..|].
  rewrite (W ObjNone (Exn TypeError "object of type 'NoneType' has no len()"));
    [reflexivity | vm_compute; reflexivity ..].
Defined.

Lemma predict_reads_boxes_and_masks_witness :
  Stub.predict Stub.inputs_dog Stub.model0
  = predict Stub.pil_open_rgb
      (Stub.model_predict_const
         (Ok [<["labels" := ObjList [ObjStr "dog"]]> (Stub.detect (PyStr "dog"));
              Stub.detect (PyStr EmptyString)]))
      Stub.build_model Stub.inputs_dog Stub.model0.
Proof.
  apply (predict_reads_boxes_and_masks
           Stub.pil_open_rgb Stub.model_predict
           (Stub.model_predict_const
              (Ok [<["labels" := ObjList [ObjStr "dog"]]>
                     (Stub.detect (PyStr "dog"));
                   Stub.detect (PyStr EmptyString)]))
           Stub.build_model Stub.inputs_dog Stub.model0 Stub.model0 []
           {| width := 1; height := 1; pixels := [x00; x00; x00] |}
           (Stub.detect (PyStr "dog"))
           (<["labels" := ObjList [ObjStr "dog"]]> (Stub.detect (PyStr "dog")))
           [] [Stub.detect (PyStr EmptyString)]);
    vm_compute; reflexivity.
Defined.

Lemma serve_same_variant_witness :
  fst (Stub.serve [Stub.inputs_dog; Stub.inputs_garbage;
                   Stub.inputs_empty_prompt] Stub.model0) = Stub.model0
  /\ builds (snd (Stub.serve [Stub.inputs_dog; Stub.inputs_garbage;
                             Stub.inputs_empty_prompt] Stub.model0)) = 0%nat.
Proof.
  apply (serve_same_variant
           Stub.pil_open_rgb Stub.model_predict Stub.build_model
           [Stub.inputs_dog; Stub.inputs_garbage; Stub.inputs_empty_prompt]
           Stub.model0).
  repeat constructor.
Defined.

Lemma encode_response_any_shape_witness :
  exists response,
    encode_response {| Output.boxes := Stub.one_mask |} = Ok response
    /\ media_type response = "application/octet-stream"
    /\ np.load (content response) = Ok Stub.one_mask.
Proof.
  apply (encode_response_any_shape Stub.one_mask).
  - split; [reflexivity|]. repeat constructor.
  - cbn. lia.
Defined.

Lemma encode_response_layout_witness :
  exists response,
    encode_response {| Output.boxes := Stub.one_box |} = Ok response
    /\ length (content response) = 144%nat
    /\ exists header,
         content response = header ++ np.data Stub.one_box
         /\ firstn 6 header = np.MAGIC_PREFIX
         /\ (length header mod 64 = 0)%nat.
Proof.
  destruct (encode_response {| Output.boxes := Stub.one_box |})
    as [response|e] eqn:E; [|vm_compute in E; discriminate].
  exists response. split; [reflexivity|]. split.
  - vm_compute in E. injection E as <-. reflexivity.
  - exact (proj2 (encode_response_layout _ _ E)).
Defined.

Lemma predict_then_encode_witness :
  exists output response,
    fst (fst (Stub.predict Stub.inputs_dog Stub.model0)) = Ok output
    /\ encode_response output = Ok response
    /\ np.load (content response) = Ok Stub.one_box.
Proof.
  assert (Hr : Stub.run_model Stub.inputs_dog Stub.model0
               = (Ok (Stub.detect (PyStr "dog")), Stub.model0,
                  snd (Stub.run_model Stub.inputs_dog Stub.model0)))
    by (vm_compute; reflexivity).
  assert (Hw : np.well_formed Stub.one_box)
    by (split; [reflexivity | repeat constructor]).
  assert (Hn : (length (np.shape Stub.one_box) <= 32)%nat) by (cbn; lia).
  exact (predict_then_encode
           Stub.pil_open_rgb Stub.model_predict Stub.build_model
           Stub.inputs_dog Stub.model0
           (Stub.detect (PyStr "dog")) Stub.model0
           (snd (Stub.run_model Stub.inputs_dog Stub.model0))
           (ObjTensor Stub.one_box_tensor) Stub.one_box
           (ObjList [ObjNdarray Stub.one_mask]) 1%nat
           Hr eq_refl eq_refl eq_refl eq_refl Hw Hn).
Defined.
